(** * ResNetRegressor: the deep-learning regression adapter of
      [sktime/regression/deep_learning/resnet.py]

    The adapter is configuration plumbing around three collaborators: numpy
    (the axis swap of [_fit]), the Python standard library ([copy.deepcopy])
    and the tensorflow/keras runtime.  The embedding keeps the adapter's own
    code as it is written -- one monadic definition per method, statement by
    statement -- over

    - Python values and a heap of mutable objects (lists and instances are
      referred to by location, so that object identity and aliasing are
      visible);
    - numpy arrays as strided views of a buffer, which is what
      [ndarray.transpose] manipulates;
    - the framework as a log of the calls made to it, with symbolic tensors
      and models; which calls raise, what the topology provider returns,
      what training writes into the callbacks it is given and what it
      returns are left to a [Framework] record: a statement either holds
      for any behaviour of the external runtime or says what it assumes of
      it.

    The [pickling] helper at the end of the class is called by no method
    and is left out. *)

From Stdlib Require Import QArith.
From stdpp Require Import numbers base option list strings.

Local Close Scope Q_scope.
Local Open Scope string_scope.
Local Open Scope list_scope.
Local Open Scope nat_scope.

(** ** Python values and the object heap *)

Abbreviation loc := nat (only parsing).

(** The values hyper-parameters range over.  Nothing in the adapter
    restricts their types, so every field of the adapter holds a [pyval].
    Numbers and strings are values, whatever their class: [PyInt] is an
    integer of [int], of a class that inherits from it or of a numpy integer
    type. *)
Inductive pyval :=
| PyNone
| PyBool (b : bool)
| PyInt (z : Z)
| PyFloat (q : Q)
| PyStr (s : string)
| PyRef (l : loc).

(** Mutable objects: lists, and instances of a class with their attribute
    dictionary in insertion order. *)
Inductive obj :=
| OList (items : list pyval)
| OInst (cls : string) (attrs : list (string * pyval)).

(** Objects are never freed; a location is an index into the heap and
    allocation appends. *)
Abbreviation heap := (list obj) (only parsing).

Definition alloc (o : obj) (h : heap) : loc * heap := (length h, h ++ [o]).

(** A Python dict with string keys, as keyword arguments are. *)
Abbreviation dict := (list (string * pyval)) (only parsing).

Fixpoint dict_get (k : string) (d : dict) : option pyval :=
  match d with
  | [] => None
  | (k', v) :: d' => if String.eqb k k' then Some v else dict_get k d'
  end.

(** Exceptions, by class. *)
Inductive exn :=
| ModuleNotFoundError (msg : string)
| ValueError (msg : string)
| RecursionError
| LookupError (l : loc)
| AttributeError (name : string)
| TypeError (msg : string)
| FrameworkError (msg : string).

(** ** numpy arrays

    An array is a view of a buffer: per axis an extent and a stride (counted
    in elements).  The element at index [i0, i1, ...] sits at buffer offset
    [i0 * stride0 + i1 * stride1 + ...]. *)

Record ndarray := {
  nd_data : list Q;
  nd_dims : list (nat * nat)
}.

Definition nd_shape (a : ndarray) : list nat := fst <$> nd_dims a.
Definition nd_strides (a : ndarray) : list nat := snd <$> nd_dims a.
Definition nd_ndim (a : ndarray) : nat := length (nd_dims a).

(** A C-contiguous array of the given shape over a buffer. *)
Fixpoint c_contiguous (shape : list nat) : list (nat * nat) :=
  match shape with
  | [] => []
  | n :: rest => (n, foldr Nat.mul 1 rest) :: c_contiguous rest
  end.

Definition np_array (shape : list nat) (data : list Q) : ndarray :=
  {| nd_data := data; nd_dims := c_contiguous shape |}.

Fixpoint nd_offset (dims : list (nat * nat)) (idx : list nat) : option nat :=
  match dims, idx with
  | [], [] => Some 0
  | (n, s) :: dims', i :: idx' =>
      if (i <? n)
      then (λ o, i * s + o) <$> nd_offset dims' idx'
      else None
  | _, _ => None
  end.

(** [a[i0, i1, ...]]; [None] where numpy raises [IndexError]. *)
Definition nd_get (a : ndarray) (idx : list nat) : option Q :=
  nd_offset (nd_dims a) idx ≫= λ o, nd_data a !! o.

(** [axes] is accepted by [transpose] when it is a permutation of
    [range(ndim)]. *)
Definition valid_axes (ndim : nat) (axes : list nat) : bool :=
  (length axes =? ndim)
  && forallb (λ i, (i <? ndim)) axes
  && bool_decide (NoDup axes).

(** [a.transpose(axes)]: a view of the same buffer whose axis [i] is axis
    [axes[i]] of [a]. *)
Definition transpose (a : ndarray) (axes : list nat) : exn + ndarray :=
  if valid_axes (nd_ndim a) axes
  then inr {| nd_data := nd_data a;
              nd_dims := omap (λ i, nd_dims a !! i) axes |}
  else inl (ValueError "axes don't match array").

(** ** The tensorflow/keras runtime, as the adapter sees it *)

(** Symbolic tensors of a layer graph.  [KApply] is a layer of the topology
    provider, with the per-instance shape of its output. *)
Inductive tensor :=
| KInput (shape : list nat)
| KApply (layer : string) (out_shape : list nat) (x : tensor)
| KDense (units : nat) (activation use_bias : pyval) (x : tensor).

(** Per-instance shape (without the batch axis).  A dense layer acts on the
    last axis. *)
Fixpoint tensor_shape (t : tensor) : list nat :=
  match t with
  | KInput shape => shape
  | KApply _ out_shape _ => out_shape
  | KDense units _ _ x => removelast (tensor_shape x) ++ [units]
  end.

Record CompileConfig := {
  c_loss : pyval;
  c_optimizer : pyval;
  c_metrics : pyval
}.

Record Model := {
  inputs : tensor;
  outputs : tensor;
  compiled : option CompileConfig
}.

(** Modelled from the spec: the constructor of the topology provider
    [sktime.networks.resnet.ResNetNetwork] is not part of the sources; the
    provider is instantiated with the given random seed and keeps it. *)
Record ResNetNetwork := { net_random_state : pyval }.

(** The calls the adapter makes into the framework and the topology
    provider, with their arguments. *)
Inductive call :=
| CSetSeed (seed : pyval)
| CAdam (learning_rate : Q)
| CLambdaCallback
| CBuildNetwork (net : ResNetNetwork) (input_shape : list nat) (kwargs : dict)
| CDense (units : nat) (activation use_bias : pyval) (x : tensor)
| CModel (inputs outputs : tensor)
| CCompile (m : Model) (loss optimizer metrics : pyval)
| CSummary (m : Model)
| CFit (m : Model) (X y : ndarray)
       (batch_size epochs verbose callbacks : pyval).

(** The process: installed packages, the classes defined beyond the
    built-in ones (each with the names of the classes it inherits from,
    directly or not), the framework's global random seed, the calls made so
    far (oldest first) and the object heap. *)
Record World := {
  installed : list string;
  classes : list (string * list string);
  tf_global_seed : pyval;
  calls : list call;
  objects : heap
}.

Definition log_call (c : call) (w : World) : World :=
  {| installed := installed w; classes := classes w;
     tf_global_seed := tf_global_seed w;
     calls := calls w ++ [c]; objects := objects w |}.

Definition set_global_seed (seed : pyval) (w : World) : World :=
  {| installed := installed w; classes := classes w;
     tf_global_seed := seed;
     calls := calls w; objects := objects w |}.

Definition set_objects (h : heap) (w : World) : World :=
  {| installed := installed w; classes := classes w;
     tf_global_seed := tf_global_seed w;
     calls := calls w; objects := h |}.

(** What the adapter does not decide: which calls raise, the tensors the
    topology provider returns, what training leaves in an object it was
    given, the history training returns. *)
Record Framework := {
  fw_raises : World → call → option exn;
  fw_build_network : ResNetNetwork → list nat → dict → tensor * tensor;
  fw_trained : World → call → loc → obj → obj;
  fw_history : World → call → pyval
}.

(** ** Computations: state and exceptions

    A raised exception leaves the state as it was at the raise, as in
    Python: attributes already assigned stay assigned. *)

Definition M (S A : Type) : Type := S → (exn + A) * S.

Global Instance M_ret {S} : MRet (M S) := λ A x s, (inr x, s).

Global Instance M_bind {S} : MBind (M S) := λ A B f m s,
  match m s with
  | (inl e, s') => (inl e, s')
  | (inr x, s') => f x s'
  end.

Definition raise {S A} (e : exn) : M S A := λ s, (inl e, s).
Definition gets {S A} (f : S → A) : M S A := λ s, (inr (f s), s).
Definition modify {S} (f : S → S) : M S () := λ s, (inr (), f s).
Definition py {S A} (r : exn + A) : M S A := λ s, (r, s).

(** Allocation of a new object. *)
Definition new_object (o : obj) : M World pyval := λ w,
  let '(l, h) := alloc o (objects w) in (inr (PyRef l), set_objects h w).

(** A call into the framework: it is logged, then it raises or returns. *)
Definition invoke (fw : Framework) (c : call) : M World () := λ w,
  match fw_raises fw w c with
  | Some e => (inl e, log_call c w)
  | None => (inr (), log_call c w)
  end.

(** ** Collaborators outside the framework *)

(** Modelled from the spec: [_check_dl_dependencies] of
    [sktime.utils.validation._dependencies] is not part of the sources.  It
    requires the deep-learning dependency (tensorflow) to be installed and,
    at severity ["error"], fails with a dependency-missing error otherwise. *)
Definition _check_dl_dependencies (severity : string) : M World bool := λ w,
  if bool_decide ("tensorflow" ∈ installed w) then (inr true, w)
  else if String.eqb severity "error"
       then (inl (ModuleNotFoundError "tensorflow"), w)
       else (inr false, w).

(** Modelled from the spec: [_check_soft_dependencies] of the same module
    is not part of the sources.  At severity ["none"] it only reports
    whether the optional library is present. *)
Definition _check_soft_dependencies (package severity : string)
    : M World bool := λ w,
  if bool_decide (package ∈ installed w) then (inr true, w)
  else if String.eqb severity "none"
       then (inr false, w)
       else (inl (ModuleNotFoundError package), w).

(** Modelled from the spec: [ResNetNetwork(random_state=...)]. *)
Definition ResNetNetwork__init__ (random_state : pyval)
    : M World ResNetNetwork :=
  mret {| net_random_state := random_state |}.

(** [import package]: the import of a package that is not installed raises
    [ModuleNotFoundError]. *)
Definition import_module (package : string) : M World () := λ w,
  if bool_decide (package ∈ installed w) then (inr (), w)
  else (inl (ModuleNotFoundError package), w).

Definition RandomState := "numpy.random.RandomState".

(** [isinstance(x, target)] for an instance [x] of the class [cls]: the
    class is [target] or inherits from it. *)
Definition isinstance (w : World) (cls target : string) : bool :=
  String.eqb cls target
  || existsb (λ '(c, bases), String.eqb c cls && existsb (String.eqb target) bases)
             (classes w).

(** A module is an object of the class [module] that carries the name it
    is imported under.  The interpreter keeps one module per name, so that
    [x is np.random] tests whether [x] is the module of that name. *)
Definition is_module (name : string) (o : obj) : bool :=
  match o with
  | OInst cls attrs =>
      String.eqb cls "module"
      && match dict_get "__name__" attrs with
         | Some (PyStr n) => String.eqb n name
         | _ => false
         end
  | OList _ => false
  end.

(** [sklearn.utils.check_random_state(seed)]: [None] and the module
    [numpy.random] stand for the global generator, an integer seeds a new
    [RandomState] (numpy takes seeds between 0 and 2**32 - 1; [bool] is an
    integer type), an instance of [RandomState] or of a class that inherits
    from it is returned as it is; anything else is a [ValueError].  The
    generator returned is not used by the caller and is not modelled. *)
Definition check_random_state (seed : pyval) : M World () := λ w,
  match seed with
  | PyNone => (inr (), w)
  | PyBool _ => (inr (), w)
  | PyInt z =>
      if ((0 <=? z) && (z <? 2 ^ 32))%Z then (inr (), w)
      else (inl (ValueError "Seed must be between 0 and 2**32 - 1"), w)
  | PyRef l =>
      match objects w !! l with
      | Some (OInst cls attrs) =>
          if is_module "numpy.random" (OInst cls attrs) then (inr (), w)
          else if isinstance w cls RandomState then (inr (), w)
          else (inl (ValueError "cannot be used to seed a RandomState"), w)
      | _ => (inl (ValueError "cannot be used to seed a RandomState"), w)
      end
  | _ => (inl (ValueError "cannot be used to seed a RandomState"), w)
  end.

(** The values an object holds. *)
Definition obj_values (o : obj) : list pyval :=
  match o with
  | OList items => items
  | OInst _ attrs => attrs.*2
  end.

(** The objects reached from a value: the object it refers to, and those
    reached from the values that object holds.  [seen] are the locations
    found so far; each level of the recursion adds one, so the number of
    objects bounds its depth. *)
Fixpoint reach (fuel : nat) (h : heap) (seen : list loc) (v : pyval)
    : list loc :=
  match v with
  | PyRef l =>
      if bool_decide (l ∈ seen) then seen
      else match fuel, h !! l with
           | S fuel', Some o => foldl (reach fuel' h) (l :: seen) (obj_values o)
           | _, _ => l :: seen
           end
  | _ => seen
  end.

Definition reachable (h : heap) (v : pyval) : list loc :=
  reach (length h) h [] v.

(** Truth value of a Python object, as [if] tests it. *)
Definition truthy (h : heap) (v : pyval) : bool :=
  match v with
  | PyNone => false
  | PyBool b => b
  | PyInt z => negb (z =? 0)%Z
  | PyFloat q => negb (Qeq_bool q 0)
  | PyStr s => negb (String.eqb s "")
  | PyRef l => match h !! l with Some (OList []) => false | _ => true end
  end.

(** *** [copy.deepcopy]

    Atomic values are returned as they are.  A list or an instance is copied
    into a new object, which is entered into the memo before its content is
    copied, so that shared and cyclic references are copied once.  The
    recursion descends only into objects that are not in the memo yet. *)

Abbreviation memo := (list (nat * nat)) (only parsing).

Fixpoint memo_get (l : loc) (m : memo) : option loc :=
  match m with
  | [] => None
  | (k, v) :: m' => if k =? l then Some v else memo_get l m'
  end.

Definition memo_set (l l' : loc) : M (memo * heap) () :=
  modify (λ '(m, h), ((l, l') :: m, h)).

Definition copy_alloc (o : obj) : M (memo * heap) loc := λ '(m, h),
  let '(l, h') := alloc o h in (inr l, (m, h')).

(** [y.append(v)] on the list at [l] *)
Definition list_append (l : loc) (v : pyval) : M (memo * heap) () :=
  modify (λ '(m, h),
    match h !! l with
    | Some (OList items) => (m, <[l := OList (items ++ [v])]> h)
    | _ => (m, h)
    end).

(** [y.__dict__.update(state)] on the instance at [l] *)
Definition dict_update (l : loc) (state : list (string * pyval))
    : M (memo * heap) () :=
  modify (λ '(m, h),
    match h !! l with
    | Some (OInst cls attrs) => (m, <[l := OInst cls (attrs ++ state)]> h)
    | _ => (m, h)
    end).

(** [for a in x: append(deepcopy(a, memo))] *)
Fixpoint copy_items (copy : pyval → M (memo * heap) pyval) (l' : loc)
    (items : list pyval) : M (memo * heap) () :=
  match items with
  | [] => mret ()
  | a :: rest => v ← copy a; list_append l' v ;; copy_items copy l' rest
  end.

(** [for key, value in x.items(): y[key] = deepcopy(value, memo)] *)
Fixpoint copy_dict (copy : pyval → M (memo * heap) pyval)
    (attrs : list (string * pyval)) : M (memo * heap) (list (string * pyval)) :=
  match attrs with
  | [] => mret []
  | (k, a) :: rest =>
      v ← copy a; state ← copy_dict copy rest; mret ((k, v) :: state)
  end.

Fixpoint deepcopy_rec (fuel : nat) (x : pyval) : M (memo * heap) pyval :=
  match x with
  | PyRef l =>
      '(m, h) ← gets id;
      match memo_get l m with
      | Some l' => mret (PyRef l')
      | None =>
          match fuel with
          | 0 => raise RecursionError
          | S fuel' =>
              match h !! l with
              | None => raise (LookupError l)
              | Some (OList items) =>
                  l' ← copy_alloc (OList []);
                  memo_set l l' ;;
                  copy_items (deepcopy_rec fuel') l' items ;;
                  mret (PyRef l')
              | Some (OInst cls attrs) =>
                  l' ← copy_alloc (OInst cls []);
                  memo_set l l' ;;
                  state ← copy_dict (deepcopy_rec fuel') attrs;
                  dict_update l' state ;;
                  mret (PyRef l')
              end
          end
      end
  | _ => mret x
  end.

(** [deepcopy(x)], with a fresh memo.  Each level of the recursion enters
    one more object into the memo, so the number of objects bounds its
    depth. *)
Definition deepcopy (x : pyval) : M World pyval := λ w,
  let '(r, (_, h)) := deepcopy_rec (S (length (objects w))) x ([], objects w) in
  (r, set_objects h w).

(** ** The adapter *)

(** The attributes of a [ResNetRegressor].  The hyper-parameters and
    [history] exist from construction on; the attributes with a trailing
    underscore and [input_shape] exist once they are first assigned. *)
Record ResNetRegressor := {
  n_epochs : pyval;
  callbacks : pyval;
  verbose : pyval;
  loss : pyval;
  metrics : pyval;
  batch_size : pyval;
  random_state : pyval;
  activation : pyval;
  use_bias : pyval;
  optimizer : pyval;
  history : pyval;
  _network : ResNetNetwork;
  optimizer_ : option pyval;
  input_shape : option (list nat);
  model_ : option Model;
  callbacks_ : option pyval
}.

Definition set_optimizer_ (v : pyval) (a : ResNetRegressor) :=
  {| n_epochs := n_epochs a; callbacks := callbacks a; verbose := verbose a;
     loss := loss a; metrics := metrics a; batch_size := batch_size a;
     random_state := random_state a; activation := activation a;
     use_bias := use_bias a; optimizer := optimizer a; history := history a;
     _network := _network a; optimizer_ := Some v;
     input_shape := input_shape a; model_ := model_ a;
     callbacks_ := callbacks_ a |}.

Definition set_input_shape (v : list nat) (a : ResNetRegressor) :=
  {| n_epochs := n_epochs a; callbacks := callbacks a; verbose := verbose a;
     loss := loss a; metrics := metrics a; batch_size := batch_size a;
     random_state := random_state a; activation := activation a;
     use_bias := use_bias a; optimizer := optimizer a; history := history a;
     _network := _network a; optimizer_ := optimizer_ a;
     input_shape := Some v; model_ := model_ a;
     callbacks_ := callbacks_ a |}.

Definition set_model_ (v : Model) (a : ResNetRegressor) :=
  {| n_epochs := n_epochs a; callbacks := callbacks a; verbose := verbose a;
     loss := loss a; metrics := metrics a; batch_size := batch_size a;
     random_state := random_state a; activation := activation a;
     use_bias := use_bias a; optimizer := optimizer a; history := history a;
     _network := _network a; optimizer_ := optimizer_ a;
     input_shape := input_shape a; model_ := Some v;
     callbacks_ := callbacks_ a |}.

Definition set_callbacks_ (v : pyval) (a : ResNetRegressor) :=
  {| n_epochs := n_epochs a; callbacks := callbacks a; verbose := verbose a;
     loss := loss a; metrics := metrics a; batch_size := batch_size a;
     random_state := random_state a; activation := activation a;
     use_bias := use_bias a; optimizer := optimizer a; history := history a;
     _network := _network a; optimizer_ := optimizer_ a;
     input_shape := input_shape a; model_ := model_ a;
     callbacks_ := Some v |}.

Definition set_history (v : pyval) (a : ResNetRegressor) :=
  {| n_epochs := n_epochs a; callbacks := callbacks a; verbose := verbose a;
     loss := loss a; metrics := metrics a; batch_size := batch_size a;
     random_state := random_state a; activation := activation a;
     use_bias := use_bias a; optimizer := optimizer a; history := v;
     _network := _network a; optimizer_ := optimizer_ a;
     input_shape := input_shape a; model_ := model_ a;
     callbacks_ := callbacks_ a |}.

(** A method runs on the adapter it is called on and on the process. *)
Definition State : Type := ResNetRegressor * World.

(** A computation of the process, inside a method. *)
Definition in_world {A} (m : M World A) : M State A := λ '(a, w),
  let '(r, w') := m w in (r, (a, w')).

(** [self.attr] *)
Definition self_get {A} (attr : ResNetRegressor → A) : M State A :=
  gets (λ s, attr s.1).

(** [self.attr] of an attribute that exists only once assigned *)
Definition self_attr {A} (name : string) (attr : ResNetRegressor → option A)
    : M State A := λ s,
  match attr s.1 with
  | Some v => (inr v, s)
  | None => (inl (AttributeError name), s)
  end.

(** [self.attr = v] *)
Definition self_set (upd : ResNetRegressor → ResNetRegressor) : M State () :=
  modify (λ '(a, w), (upd a, w)).

Section Adapter.

Variable fw : Framework.

(** *** Framework operations *)

(** [tf.random.set_seed(seed)] *)
Definition tf_random_set_seed (seed : pyval) : M World () :=
  invoke fw (CSetSeed seed) ;;
  modify (set_global_seed seed).

(** [keras.optimizers.Adam(learning_rate=lr)] *)
Definition keras_optimizers_Adam (learning_rate : Q) : M World pyval :=
  invoke fw (CAdam learning_rate) ;;
  new_object (OInst "keras.optimizers.Adam"
                    [("learning_rate", PyFloat learning_rate)]).

(** [keras.callbacks.LambdaCallback()]: no hook is given, so every hook of
    the callback does nothing. *)
Definition keras_callbacks_LambdaCallback : M World pyval :=
  invoke fw CLambdaCallback ;;
  new_object (OInst "keras.callbacks.LambdaCallback" []).

(** [network.build_network(input_shape, **kwargs)] *)
Definition build_network (net : ResNetNetwork) (input_shape : list nat)
    (kwargs : dict) : M World (tensor * tensor) :=
  invoke fw (CBuildNetwork net input_shape kwargs) ;;
  mret (fw_build_network fw net input_shape kwargs).

(** [keras.layers.Dense(units, activation, use_bias)(x)] *)
Definition keras_layers_Dense (units : nat) (activation use_bias : pyval)
    (x : tensor) : M World tensor :=
  invoke fw (CDense units activation use_bias x) ;;
  mret (KDense units activation use_bias x).

(** [keras.models.Model(inputs, outputs)] *)
Definition keras_models_Model (i o : tensor) : M World Model :=
  invoke fw (CModel i o) ;;
  mret {| inputs := i; outputs := o; compiled := None |}.

(** [model.compile(loss, optimizer, metrics)] *)
Definition Model_compile (m : Model) (loss optimizer metrics : pyval)
    : M World Model :=
  invoke fw (CCompile m loss optimizer metrics) ;;
  mret {| inputs := inputs m; outputs := outputs m;
          compiled := Some {| c_loss := loss; c_optimizer := optimizer;
                              c_metrics := metrics |} |}.

(** [model.summary()] *)
Definition Model_summary (m : Model) : M World () :=
  invoke fw (CSummary m).

(** What training leaves in the heap: the objects reached from the
    callbacks it was given are as the framework leaves them. *)
Definition trained_objects (c : call) (given : pyval) (w : World) : heap :=
  let mine := reachable (objects w) given in
  imap (λ l o, if bool_decide (l ∈ mine) then fw_trained fw w c l o else o)
       (objects w).

(** [model.fit(X, y, batch_size, epochs, verbose, callbacks)].  Training
    writes into the callbacks it is given: keras sets [model] and [params]
    on each of them, and their hooks run. *)
Definition Model_fit (m : Model) (X y : ndarray)
    (batch_size epochs verbose callbacks : pyval) : M World pyval :=
  let c := CFit m X y batch_size epochs verbose callbacks in
  invoke fw c ;;
  modify (λ w, set_objects (trained_objects c callbacks w) w) ;;
  w ← gets id;
  mret (fw_history fw w c).

(** *** The methods of [ResNetRegressor] *)

Definition __init__
    (n_epochs callbacks verbose loss metrics batch_size random_state
     activation use_bias optimizer : pyval) : M World ResNetRegressor :=
  _check_dl_dependencies "error" ;;
  (* super().__init__() assigns none of the attributes below *)
  network ← ResNetNetwork__init__ random_state;
  mret {| n_epochs := n_epochs; callbacks := callbacks; verbose := verbose;
          loss := loss; metrics := metrics; batch_size := batch_size;
          random_state := random_state; activation := activation;
          use_bias := use_bias; optimizer := optimizer;
          history := PyNone; _network := network;
          optimizer_ := None; input_shape := None; model_ := None;
          callbacks_ := None |}.

Definition build_model (input_shape : list nat) (kwargs : dict)
    : M State Model :=
  in_world (import_module "tensorflow") ;;  (* import tensorflow as tf *)
  in_world (import_module "tensorflow") ;;  (* from tensorflow import keras *)

  seed ← self_get random_state;
  in_world (tf_random_set_seed seed) ;;

  configured ← self_get optimizer;
  resolved ← match configured with
             | PyNone => in_world (keras_optimizers_Adam (1 # 100))
             | _ => mret configured
             end;
  self_set (set_optimizer_ resolved) ;;

  configured ← self_get metrics;
  metrics ← match configured with
            | PyNone =>
                in_world (new_object (OList [PyStr "mean_squared_error"]))
            | _ => mret configured
            end;

  network ← self_get _network;
  '(input_layer, output_layer) ←
     in_world (build_network network input_shape kwargs);

  activation ← self_get activation;
  use_bias ← self_get use_bias;
  output_layer ←
     in_world (keras_layers_Dense 1 activation use_bias output_layer);

  model ← in_world (keras_models_Model input_layer output_layer);
  loss ← self_get loss;
  optimizer ← self_attr "optimizer_" optimizer_;
  model ← in_world (Model_compile model loss optimizer metrics);

  mret model.

Definition _fit (X y : ndarray) : M State ResNetRegressor :=
  (* Transpose to conform to Keras input style. *)
  X ← py (transpose X [0; 2; 1]);

  seed ← self_get random_state;
  in_world (check_random_state seed) ;;
  self_set (set_input_shape (tail (nd_shape X))) ;;
  shape ← self_attr "input_shape" input_shape;
  model ← build_model shape [];
  self_set (set_model_ model) ;;
  flag ← self_get verbose;
  h ← in_world (gets objects);
  (if truthy h flag
   then model ← self_attr "model_" model_; in_world (Model_summary model)
   else mret ()) ;;

  configured ← self_get callbacks;
  copied ← in_world (deepcopy configured);
  self_set (set_callbacks_ copied) ;;
  model ← self_attr "model_" model_;
  size ← self_get batch_size;
  epochs ← self_get n_epochs;
  flag ← self_get verbose;
  copied ← self_attr "callbacks_" callbacks_;
  trained ← in_world (Model_fit model X y size epochs flag copied);
  self_set (set_history trained) ;;
  gets fst.

Definition get_test_params (parameter_set : string) : M World (list dict) :=
  let param1 := [("n_epochs", PyInt 6);
                 ("batch_size", PyInt 4);
                 ("use_bias", PyBool false)] in
  let param2 := [("n_epochs", PyInt 4);
                 ("batch_size", PyInt 6);
                 ("use_bias", PyBool true)] in
  let test_params := [param1; param2] in
  present ← _check_soft_dependencies "keras" "none";
  if present : bool
  then import_module "keras" ;;  (* from keras.callbacks import LambdaCallback *)
       callback ← keras_callbacks_LambdaCallback;
       callbacks ← new_object (OList [callback]);
       mret (test_params ++ [[("n_epochs", PyInt 2);
                              ("callbacks", callbacks)]])
  else mret test_params.

End Adapter.

(** [ResNetRegressor(kwargs)], called with the dict unpacked: the keyword arguments over the defaults
    of the signature of [__init__]; a keyword the signature does not have
    is a [TypeError]. *)
Definition kwarg (name : string) (default : pyval) (kwargs : dict) : pyval :=
  match dict_get name kwargs with Some v => v | None => default end.

Definition signature : list string :=
  ["n_epochs"; "callbacks"; "verbose"; "loss"; "metrics"; "batch_size";
   "random_state"; "activation"; "use_bias"; "optimizer"].

Definition construct (kwargs : dict) : M World ResNetRegressor :=
  if forallb (λ k, bool_decide (k ∈ signature)) kwargs.*1
  then __init__ (kwarg "n_epochs" (PyInt 1500) kwargs)
                (kwarg "callbacks" PyNone kwargs)
                (kwarg "verbose" (PyBool false) kwargs)
                (kwarg "loss" (PyStr "mean_squared_error") kwargs)
                (kwarg "metrics" PyNone kwargs)
                (kwarg "batch_size" (PyInt 16) kwargs)
                (kwarg "random_state" PyNone kwargs)
                (kwarg "activation" (PyStr "linear") kwargs)
                (kwarg "use_bias" (PyBool true) kwargs)
                (kwarg "optimizer" PyNone kwargs)
  else raise (TypeError "__init__() got an unexpected keyword argument").


(** ** Vocabulary of the statements *)

(** A framework that raises on no call. *)
Definition quiet (fw : Framework) : Prop := ∀ w c, fw_raises fw w c = None.

(** A random-state object of numpy: an instance of [RandomState] or of a
    class that inherits from it, or the module [numpy.random], whose
    functions are the methods of the global instance. *)
Definition random_state_object (w : World) (v : pyval) : Prop :=
  ∃ l cls attrs,
    v = PyRef l ∧ objects w !! l = Some (OInst cls attrs)
    ∧ (isinstance w cls RandomState = true
       ∨ is_module "numpy.random" (OInst cls attrs) = true).

(** The calls made between two states of the process. *)
Definition calls_since (w w' : World) : list call :=
  drop (length (calls w)) (calls w').

(** The default optimizer and the default metrics list, as objects. *)
Definition default_optimizer : obj :=
  OInst "keras.optimizers.Adam" [("learning_rate", PyFloat (1 # 100))].

Definition default_metrics : obj := OList [PyStr "mean_squared_error"].

(** What [build_model] resolves on the adapter [a] in a heap [h]: the
    optimizer and the metrics, the objects allocated for them and the call
    that constructs the default optimizer. *)
Definition resolved_optimizer (a : ResNetRegressor) (h : heap) : pyval :=
  match optimizer a with PyNone => PyRef (length h) | o => o end.

Definition optimizer_objects (a : ResNetRegressor) : list obj :=
  match optimizer a with PyNone => [default_optimizer] | _ => [] end.

Definition optimizer_calls (a : ResNetRegressor) : list call :=
  match optimizer a with PyNone => [CAdam (1 # 100)] | _ => [] end.

Definition resolved_metrics (a : ResNetRegressor) (h : heap) : pyval :=
  match metrics a with
  | PyNone => PyRef (length (h ++ optimizer_objects a))
  | ms => ms
  end.

Definition metrics_objects (a : ResNetRegressor) : list obj :=
  match metrics a with PyNone => [default_metrics] | _ => [] end.

(** The graph [build_model] assembles from the tensors of the topology
    provider, before and after it is compiled. *)
Definition assembled_model (fw : Framework) (a : ResNetRegressor)
    (shape : list nat) (kwargs : dict) : Model :=
  let t := fw_build_network fw (_network a) shape kwargs in
  {| inputs := t.1;
     outputs := KDense 1 (activation a) (use_bias a) t.2;
     compiled := None |}.

Definition compiled_model (fw : Framework) (a : ResNetRegressor)
    (shape : list nat) (kwargs : dict) (h : heap) : Model :=
  let t := fw_build_network fw (_network a) shape kwargs in
  {| inputs := t.1;
     outputs := KDense 1 (activation a) (use_bias a) t.2;
     compiled := Some {| c_loss := loss a;
                         c_optimizer := resolved_optimizer a h;
                         c_metrics := resolved_metrics a h |} |}.

(** The calls of one run of [build_model] in a quiet framework. *)
Definition build_model_calls (fw : Framework) (a : ResNetRegressor)
    (shape : list nat) (kwargs : dict) (h : heap) : list call :=
  CSetSeed (random_state a)
  :: optimizer_calls a
  ++ [CBuildNetwork (_network a) shape kwargs;
      CDense 1 (activation a) (use_bias a)
             (fw_build_network fw (_network a) shape kwargs).2;
      CModel (inputs (assembled_model fw a shape kwargs))
             (outputs (assembled_model fw a shape kwargs));
      CCompile (assembled_model fw a shape kwargs) (loss a)
               (resolved_optimizer a h) (resolved_metrics a h)].

(** The process after one run of [build_model] in a quiet framework. *)
Definition after_build_model (fw : Framework) (a : ResNetRegressor)
    (shape : list nat) (kwargs : dict) (w : World) : World :=
  {| installed := installed w;
     classes := classes w;
     tf_global_seed := random_state a;
     calls := calls w ++ build_model_calls fw a shape kwargs (objects w);
     objects := objects w ++ optimizer_objects a ++ metrics_objects a |}.

(** The process after the training call [c], made in [w] with the
    callbacks [given], has returned. *)
Definition after_training (fw : Framework) (c : call) (given : pyval)
    (w : World) : World :=
  set_objects (trained_objects fw c given (log_call c w)) (log_call c w).

Definition is_build_network_call (c : call) : bool :=
  match c with CBuildNetwork _ _ _ => true | _ => false end.

Definition is_fit_call (c : call) : bool :=
  match c with CFit _ _ _ _ _ _ _ => true | _ => false end.

(** The process and the adapter when [_fit] reaches the copy of the
    callbacks, in a quiet framework: the model is built and, if [verbose]
    holds, summarised. *)
Definition before_copy (fw : Framework) (a : ResNetRegressor)
    (shape : list nat) (w : World) : World :=
  let w1 := after_build_model fw a shape [] w in
  if truthy (objects w1) (verbose a)
  then log_call (CSummary (compiled_model fw a shape [] (objects w))) w1
  else w1.

Definition adapter_before_copy (fw : Framework) (a : ResNetRegressor)
    (shape : list nat) (w : World) : ResNetRegressor :=
  set_model_ (compiled_model fw a shape [] (objects w))
    (set_optimizer_ (resolved_optimizer a (objects w))
       (set_input_shape shape a)).

(** The training call of [_fit] with the copied callbacks. *)
Definition training_call (fw : Framework) (a : ResNetRegressor)
    (shape : list nat) (w : World) (X y : ndarray) (copied : pyval) : call :=
  CFit (compiled_model fw a shape [] (objects w)) X y
       (batch_size a) (n_epochs a) (verbose a) copied.

Definition is_dense_call (c : call) : bool :=
  match c with CDense _ _ _ _ => true | _ => false end.

Definition is_adam_call (c : call) : bool :=
  match c with CAdam _ => true | _ => false end.

(** Modelled from the spec: [ResNetNetwork.build_network] is not part of the
    sources.  Given an input shape it returns an input placeholder for that
    shape and an output feature tensor, one feature vector per instance. *)
Definition topology_provider (fw : Framework) : Prop :=
  ∀ net shape kwargs,
    (fw_build_network fw net shape kwargs).1 = KInput shape
    ∧ ∃ features,
        tensor_shape (fw_build_network fw net shape kwargs).2 = [features].

(** A record of test parameters that keeps training small. *)
Definition epochs_in_range (p : dict) : Prop :=
  ∃ e, dict_get "n_epochs" p = Some (PyInt e) ∧ (2 ≤ e ≤ 6)%Z.

Definition batch_size_in_range (p : dict) : Prop :=
  ∃ b, dict_get "batch_size" p = Some (PyInt b) ∧ (4 ≤ b ≤ 6)%Z.

(** *** What a computation leaves alone *)

(** The global seed is as it was and the calls made are still in the log. *)
Definition seed_kept (w w' : World) : Prop :=
  tf_global_seed w' = tf_global_seed w ∧ calls w `prefix_of` calls w'.

Definition keeps_seed {A} (m : M State A) : Prop :=
  ∀ a w r a' w', m (a, w) = (r, (a', w')) → seed_kept w w'.

Definition keeps_seed_world {A} (m : M World A) : Prop :=
  ∀ w r w', m w = (r, w') → seed_kept w w'.

(** *** Object graphs *)

(** A value that refers to no location from [n] on. *)
Definition refers_below (n : nat) (v : pyval) : Prop :=
  match v with PyRef l => l < n | _ => True end.

(** A heap without dangling references, as every Python heap is. *)
Definition closed (h : heap) : Prop :=
  ∀ l o, h !! l = Some o → Forall (refers_below (length h)) (obj_values o).

(** A value that refers, if at all, to a location in [n, len). *)
Definition isolated (n len : nat) (v : pyval) : Prop :=
  match v with PyRef l => n ≤ l < len | _ => True end.

(** [h'] has the objects of [h], unchanged, and maybe more. *)
Definition extends (h h' : heap) : Prop :=
  length h ≤ length h' ∧ ∀ l, l < length h → h' !! l = h !! l.

(** What a value looks like to code that follows references from it up to
    [depth] levels: the contents, without the locations. *)
#[warnings="-register-all"]
Inductive tree :=
| TAtom (v : pyval)
| TList (items : list tree)
| TInst (cls : string) (attrs : list (string * tree))
| TDeeper
| TDangling.

Fixpoint view (depth : nat) (h : heap) (v : pyval) : tree :=
  match v with
  | PyRef l =>
      match depth with
      | 0 => TDeeper
      | S depth' =>
          match h !! l with
          | Some (OList items) => TList (view depth' h <$> items)
          | Some (OInst cls attrs) =>
              TInst cls (prod_map id (view depth' h) <$> attrs)
          | None => TDangling
          end
      end
  | _ => TAtom v
  end.

(** The copy [v] of [x] under a memo. *)
Definition renamed (m : memo) (x v : pyval) : Prop :=
  match x with
  | PyRef k => ∃ k', memo_get k m = Some k' ∧ v = PyRef k'
  | _ => v = x
  end.

(** The memo entry [e]: the object at [e.2] in [h] is the finished copy of
    the object at [e.1] in [h0]. *)
Definition copied_entry (h0 : heap) (m : memo) (h : heap) (e : nat * nat)
    : Prop :=
  match h0 !! e.1 with
  | Some (OList items) =>
      ∃ items', h !! e.2 = Some (OList items')
                ∧ Forall2 (renamed m) items items'
  | Some (OInst cls attrs) =>
      ∃ attrs', h !! e.2 = Some (OInst cls attrs')
                ∧ attrs'.*1 = attrs.*1
                ∧ Forall2 (renamed m) attrs.*2 attrs'.*2
  | None => False
  end.

(** The invariant of a copy of objects of [h0] in progress. *)
Record copying (h0 : heap) (m : memo) (h : heap) : Prop := {
  copying_old : extends h0 h;
  copying_memo :
    Forall (λ e, e.1 < length h0 ∧ length h0 ≤ e.2 < length h) m;
  copying_nodup : NoDup m.*1;
  copying_new : ∀ l o,
    length h0 ≤ l → h !! l = Some o →
    Forall (isolated (length h0) (length h)) (obj_values o)
}.

(** What one call of the copy establishes. *)
Record copies (h0 : heap) (m : memo) (h : heap) (x v : pyval)
    (m' : memo) (h' : heap) : Prop := {
  copies_inv : copying h0 m' h';
  copies_heap : extends h h';
  copies_memo : ∃ added,
    m' = added ++ m
    ∧ Forall (λ e, length h ≤ e.2) added
    ∧ Forall (copied_entry h0 m' h') added;
  copies_value : renamed m' x v
}.

(** A copy function that succeeds, with recursion budget [budget]. *)
Definition copy_ok (h0 : heap) (copy : pyval → M (memo * heap) pyval)
    (budget : nat) : Prop :=
  ∀ x m h,
    copying h0 m h → refers_below (length h0) x →
    length h0 ≤ budget + length m →
    ∃ v m' h', copy x (m, h) = (inr v, (m', h')) ∧ copies h0 m h x v m' h'.

(** *** What a method leaves of the adapter *)

(** The hyper-parameters and the topology provider are those of [a]. *)
Definition same_hyperparameters (a a' : ResNetRegressor) : Prop :=
  n_epochs a' = n_epochs a ∧ callbacks a' = callbacks a
  ∧ verbose a' = verbose a ∧ loss a' = loss a ∧ metrics a' = metrics a
  ∧ batch_size a' = batch_size a ∧ random_state a' = random_state a
  ∧ activation a' = activation a ∧ use_bias a' = use_bias a
  ∧ optimizer a' = optimizer a ∧ _network a' = _network a.

(** No attribute but [optimizer_] differs from [a]. *)
Definition only_optimizer_set (a a' : ResNetRegressor) : Prop :=
  same_hyperparameters a a'
  ∧ history a' = history a ∧ input_shape a' = input_shape a
  ∧ model_ a' = model_ a ∧ callbacks_ a' = callbacks_ a.

(** A computation that takes the adapter along the relation [R], however
    it ends. *)
Definition adapter_along (R : ResNetRegressor → ResNetRegressor → Prop)
    {A} (m : M State A) : Prop :=
  ∀ a w r a' w', m (a, w) = (r, (a', w')) → R a a'.

(** *** Where an exception comes from *)

(** The exception [e] was raised by the framework, on the call logged last
    in [w']. *)
Definition rejected (fw : Framework) (e : exn) (w' : World) : Prop :=
  ∃ w0 c, fw_raises fw w0 c = Some e ∧ last (calls w') = Some c.

(** A computation of the process that raises only what the framework
    raised. *)
Definition raises_from (fw : Framework) {A} (m : M World A) : Prop :=
  ∀ w e w', m w = (inl e, w') → rejected fw e w'.

(** The same of a method, started on an adapter in [P]; [Q] holds of the
    adapter when it returns. *)
Definition errs_from (fw : Framework) (P Q : ResNetRegressor → Prop)
    {A} (m : M State A) : Prop :=
  ∀ a w r a' w',
    P a → m (a, w) = (r, (a', w')) →
    match r with inl e => rejected fw e w' | inr _ => Q a' end.

(** A framework that raises on no call but, maybe, the training call. *)
Definition quiet_until_training (fw : Framework) : Prop :=
  ∀ w c, is_fit_call c = false → fw_raises fw w c = None.

Definition is_summary_call (c : call) : bool :=
  match c with CSummary _ => true | _ => false end.

(** The hyper-parameter of an adapter by its keyword. *)
Definition hyperparameter (name : string) (a : ResNetRegressor)
    : option pyval :=
  if String.eqb name "n_epochs" then Some (n_epochs a)
  else if String.eqb name "callbacks" then Some (callbacks a)
  else if String.eqb name "verbose" then Some (verbose a)
  else if String.eqb name "loss" then Some (loss a)
  else if String.eqb name "metrics" then Some (metrics a)
  else if String.eqb name "batch_size" then Some (batch_size a)
  else if String.eqb name "random_state" then Some (random_state a)
  else if String.eqb name "activation" then Some (activation a)
  else if String.eqb name "use_bias" then Some (use_bias a)
  else if String.eqb name "optimizer" then Some (optimizer a)
  else None.

Definition is_seed_call (c : call) : bool :=
  match c with CSetSeed _ => true | _ => false end.

(** ** Concrete instances *)

(** A quiet framework over a topology provider that ends in a vector of 128
    features per instance; training sets [model] on the callbacks. *)
Definition example_framework : Framework :=
  {| fw_raises := λ _ _, None;
     fw_build_network := λ net shape kwargs,
       (KInput shape, KApply "ResNetNetwork" [128] (KInput shape));
     fw_trained := λ _ _ _ o,
       match o with
       | OInst cls attrs => OInst cls (attrs ++ [("model", PyStr "functional")])
       | OList items => OList items
       end;
     fw_history := λ _ _, PyStr "History" |}.

(** A process with tensorflow only, one with keras as well, one with
    neither. *)
Definition tensorflow_world : World :=
  {| installed := ["tensorflow"]; classes := []; tf_global_seed := PyNone;
     calls := []; objects := [] |}.

Definition keras_world : World :=
  {| installed := ["tensorflow"; "keras"]; classes := [];
     tf_global_seed := PyNone;
     calls := []; objects := [] |}.

Definition bare_world : World :=
  {| installed := []; classes := []; tf_global_seed := PyNone;
     calls := []; objects := [] |}.

(** The adapter of the scenario [n_epochs=6, batch_size=4, use_bias=False],
    the other hyper-parameters at their defaults. *)
Definition example_adapter : ResNetRegressor :=
  {| n_epochs := PyInt 6; callbacks := PyNone; verbose := PyBool false;
     loss := PyStr "mean_squared_error"; metrics := PyNone;
     batch_size := PyInt 4; random_state := PyNone;
     activation := PyStr "linear"; use_bias := PyBool false;
     optimizer := PyNone; history := PyNone;
     _network := {| net_random_state := PyNone |};
     optimizer_ := None; input_shape := None; model_ := None;
     callbacks_ := None |}.

(** Two instances of one dimension and three time points. *)
Definition example_X : ndarray :=
  np_array [2; 1; 3] [1 # 1; 2 # 1; 3 # 1; 4 # 1; 5 # 1; 6 # 1]%Q.

Definition example_y : ndarray := np_array [2] [1 # 2; 3 # 2]%Q.

(** A process in which the caller has made a list of one callback, and an
    adapter configured with that list and an integer seed. *)
Definition callback_world : World :=
  {| installed := ["tensorflow"; "keras"]; classes := [];
     tf_global_seed := PyNone;
     calls := [];
     objects := [OInst "keras.callbacks.LambdaCallback" [];
                 OList [PyRef 0]] |}.

Definition callback_adapter : ResNetRegressor :=
  {| n_epochs := PyInt 2; callbacks := PyRef 1; verbose := PyBool true;
     loss := PyStr "mean_squared_error"; metrics := PyNone;
     batch_size := PyInt 16; random_state := PyInt 7;
     activation := PyStr "linear"; use_bias := PyBool true;
     optimizer := PyNone; history := PyNone;
     _network := {| net_random_state := PyInt 7 |};
     optimizer_ := None; input_shape := None; model_ := None;
     callbacks_ := None |}.

(** An adapter whose seed is a string. *)
Definition misconfigured_adapter : ResNetRegressor :=
  {| n_epochs := PyInt 6; callbacks := PyNone; verbose := PyBool false;
     loss := PyStr "mean_squared_error"; metrics := PyNone;
     batch_size := PyInt 4; random_state := PyStr "seed";
     activation := PyStr "linear"; use_bias := PyBool false;
     optimizer := PyNone; history := PyNone;
     _network := {| net_random_state := PyStr "seed" |};
     optimizer_ := None; input_shape := None; model_ := None;
     callbacks_ := None |}.

(** A framework that rejects every dense layer. *)
Definition failing_framework : Framework :=
  {| fw_raises := λ _ c,
       if is_dense_call c then Some (FrameworkError "Dense") else None;
     fw_build_network := fw_build_network example_framework;
     fw_trained := fw_trained example_framework;
     fw_history := fw_history example_framework |}.

(** The data of the scenario: ten instances of one dimension and twenty-four
    time points. *)
Definition scenario_X : ndarray := np_array [10; 1; 24] (replicate 240 (0 # 1)%Q).

Definition scenario_y : ndarray := np_array [10] (replicate 10 (0 # 1)%Q).

(** A heap with a cycle: a list that holds itself and a callback, and the
    callback refers back to the list. *)
Definition cyclic_world : World :=
  {| installed := ["tensorflow"]; classes := []; tf_global_seed := PyNone;
     calls := [];
     objects := [OList [PyRef 0; PyRef 1; PyInt 3];
                 OInst "Callback" [("owner", PyRef 0)]] |}.

(** A framework in which training fails. *)
Definition diverging_framework : Framework :=
  {| fw_raises := λ _ c,
       if is_fit_call c then Some (FrameworkError "loss is not finite")
       else None;
     fw_build_network := fw_build_network example_framework;
     fw_trained := fw_trained example_framework;
     fw_history := fw_history example_framework |}.

(** An adapter fitted before, with a history. *)
Definition fitted_adapter : ResNetRegressor :=
  set_history (PyStr "earlier history") callback_adapter.

(** A process with numpy imported, in which a class [SeededState] inherits
    from [RandomState]: the heap holds the module [numpy.random], an
    instance of [SeededState] and a callback. *)
Definition numpy_world : World :=
  {| installed := ["tensorflow"; "numpy"];
     classes := [("SeededState", [RandomState; "object"])];
     tf_global_seed := PyNone;
     calls := [];
     objects := [OInst "module" [("__name__", PyStr "numpy.random")];
                 OInst "SeededState" [];
                 OInst "keras.callbacks.LambdaCallback" []] |}.

(** The adapter of the scenario, configured with another seed. *)
Definition seeded_adapter (seed : pyval) : ResNetRegressor :=
  {| n_epochs := PyInt 6; callbacks := PyNone; verbose := PyBool false;
     loss := PyStr "mean_squared_error"; metrics := PyNone;
     batch_size := PyInt 4; random_state := seed;
     activation := PyStr "linear"; use_bias := PyBool false;
     optimizer := PyNone; history := PyNone;
     _network := {| net_random_state := seed |};
     optimizer_ := None; input_shape := None; model_ := None;
     callbacks_ := None |}.

(** * Properties *)

(** ** The axis swap *)

Lemma transpose_021 (X : ndarray) (a b c : nat * nat) :
  nd_dims X = [a; b; c] →
  transpose X [0; 2; 1] = inr {| nd_data := nd_data X; nd_dims := [a; c; b] |}.
Proof.
  intros HX. unfold transpose, nd_ndim. rewrite HX. reflexivity.
Qed.

Lemma transpose_021_not_3d (X : ndarray) :
  nd_ndim X ≠ 3 →
  transpose X [0; 2; 1] = inl (ValueError "axes don't match array").
Proof.
  intros HX. unfold transpose, valid_axes.
  assert ((length [0; 2; 1] =? nd_ndim X) = false) as ->; [|reflexivity].
  apply Nat.eqb_neq. simpl. congruence.
Qed.

Lemma shape_3d (X : ndarray) (n d m : nat) :
  nd_shape X = [n; d; m] →
  ∃ s0 s1 s2, nd_dims X = [(n, s0); (d, s1); (m, s2)].
Proof.
  unfold nd_shape. destruct (nd_dims X) as [|[n' s0] [|[d' s1] [|[m' s2] [|]]]];
    simpl; intros [= -> -> ->]. eauto.
Qed.

Lemma nd_get_swap (data : list Q) (a b c : nat * nat) (i j k : nat) :
  nd_get {| nd_data := data; nd_dims := [a; c; b] |} [i; k; j]
  = nd_get {| nd_data := data; nd_dims := [a; b; c] |} [i; j; k].
Proof.
  destruct a as [n s0], b as [d s1], c as [m s2]. unfold nd_get. simpl.
  destruct (i <? n), (j <? d), (k <? m); simpl; try reflexivity.
  f_equal. lia.
Qed.

(** The axis swap on a three-dimensional array. *)
Lemma transpose_3d (X : ndarray) (n d m : nat) :
  nd_shape X = [n; d; m] →
  ∃ Xt,
    transpose X [0; 2; 1] = inr Xt
    ∧ nd_shape Xt = [n; m; d]
    ∧ (∀ i j k, nd_get Xt [i; k; j] = nd_get X [i; j; k]).
Proof.
  intros Hshape. destruct (shape_3d X n d m Hshape) as (s0 & s1 & s2 & Hdims).
  destruct X as [data dims]. simpl in Hdims. subst dims.
  eexists. split; [by apply transpose_021|].
  split; [reflexivity|]. intros. apply nd_get_swap.
Qed.

(** C9.  The axis swap of [_fit] is an involution: on an array of shape
    [(n, d, m)] it gives an array of shape [(n, m, d)] whose element at
    [(i, k, j)] is the element of the original at [(i, j, k)], and the same
    swap applied again gives back the original array: the same shape and
    the same element at every index. *)
Theorem transpose_involution (X : ndarray) (n d m : nat) :
  nd_shape X = [n; d; m] →
  ∃ Xt Xtt,
    transpose X [0; 2; 1] = inr Xt
    ∧ nd_shape Xt = [n; m; d]
    ∧ (∀ i j k, nd_get Xt [i; k; j] = nd_get X [i; j; k])
    ∧ transpose Xt [0; 2; 1] = inr Xtt
    ∧ nd_shape Xtt = [n; d; m]
    ∧ (∀ idx, nd_get Xtt idx = nd_get X idx)
    ∧ Xtt = X.
Proof.
  intros Hshape. destruct (shape_3d X n d m Hshape) as (s0 & s1 & s2 & Hdims).
  destruct X as [data dims]. simpl in Hdims. subst dims.
  eexists _, _. split; [by apply transpose_021|].
  split; [reflexivity|]. split; [intros; apply nd_get_swap|].
  split; [by apply transpose_021|]. done.
Qed.

(** ** Running computations *)

Lemma bind_run {S A B} (m : M S A) (f : A → M S B) (s : S) :
  (m ≫= f) s = match m s with
               | (inl e, s') => (inl e, s')
               | (inr x, s') => f x s'
               end.
Proof. reflexivity. Qed.

Lemma in_world_run {A} (m : M World A) (a : ResNetRegressor) (w : World) :
  in_world m (a, w) = let '(r, w') := m w in (r, (a, w')).
Proof. reflexivity. Qed.

(** ** Validation of the random seed *)

Lemma check_random_state_invalid (seed : pyval) (w : World) :
  seed ≠ PyNone →
  (∀ z, seed ≠ PyInt z) →
  (∀ b, seed ≠ PyBool b) →
  ¬ random_state_object w seed →
  ∃ msg, check_random_state seed w = (inl (ValueError msg), w).
Proof.
  intros Hnone Hint Hbool Hrs. unfold check_random_state.
  destruct seed as [| b | z | q | s | l]; eauto.
  - done.
  - by destruct (Hbool b).
  - by destruct (Hint z).
  - destruct (objects w !! l) as [[items | cls attrs]|] eqn:Hl; eauto.
    destruct (is_module "numpy.random" (OInst cls attrs)) eqn:Hmodule.
    { destruct Hrs. exists l, cls, attrs. auto. }
    destruct (isinstance w cls RandomState) eqn:Hcls; eauto.
    destruct Hrs. exists l, cls, attrs. auto.
Qed.

(** The check accepts what the statement above leaves out. *)
Lemma check_random_state_object (seed : pyval) (w : World) :
  random_state_object w seed →
  check_random_state seed w = (inr (), w).
Proof.
  intros (l & cls & attrs & -> & Hl & Hcls). unfold check_random_state.
  rewrite Hl. destruct (is_module "numpy.random" (OInst cls attrs)); [done|].
  destruct Hcls as [-> | ?]; done.
Qed.


(** C10.  [_fit] checks the configured seed before it builds anything: when
    [random_state] is neither [None], nor an integer ([bool] included), nor
    a random-state object of numpy -- an instance of [RandomState] or of a
    class that inherits from it, or the module [numpy.random], which the
    check takes for the global instance -- [_fit] raises a [ValueError] and
    leaves the adapter -- its model and its history among all its
    attributes -- and the process as they were: no call has been made into
    the framework, so no model was constructed and no training took
    place. *)
Theorem fit_rejects_invalid_seed (fw : Framework) (a : ResNetRegressor)
    (w : World) (X y : ndarray) :
  random_state a ≠ PyNone →
  (∀ z, random_state a ≠ PyInt z) →
  (∀ b, random_state a ≠ PyBool b) →
  ¬ random_state_object w (random_state a) →
  ∃ msg, _fit fw X y (a, w) = (inl (ValueError msg), (a, w)).
Proof.
  intros Hnone Hint Hbool Hrs.
  destruct (check_random_state_invalid _ w Hnone Hint Hbool Hrs) as [msg Hmsg].
  unfold _fit. rewrite bind_run. unfold py at 1.
  destruct (transpose X [0; 2; 1]) as [e | Xt] eqn:HX.
  - unfold transpose in HX. destruct (valid_axes _ _); [done|].
    injection HX as <-. eauto.
  - rewrite bind_run. cbn [self_get gets fst].
    rewrite bind_run, in_world_run, Hmsg. eauto.
Qed.

(** ** Runs in a quiet framework *)

Lemma ret_run {S A} (x : A) (s : S) : mret (M := M S) x s = (inr x, s).
Proof. reflexivity. Qed.

Lemma self_get_run {A} (f : ResNetRegressor → A) a w :
  self_get f (a, w) = (inr (f a), (a, w)).
Proof. reflexivity. Qed.

Lemma self_set_run u a w : self_set u (a, w) = (inr (), (u a, w)).
Proof. reflexivity. Qed.

Lemma self_attr_run {A} name (f : ResNetRegressor → option A) a w v :
  f a = Some v → self_attr name f (a, w) = (inr v, (a, w)).
Proof. intros H. unfold self_attr. simpl. by rewrite H. Qed.

Lemma new_object_run o a w :
  in_world (new_object o) (a, w)
  = (inr (PyRef (length (objects w))), (a, set_objects (objects w ++ [o]) w)).
Proof. reflexivity. Qed.

Lemma import_run package a w :
  package ∈ installed w →
  in_world (import_module package) (a, w) = (inr (), (a, w)).
Proof.
  intros Hin. rewrite in_world_run. unfold import_module.
  by rewrite bool_decide_eq_true_2.
Qed.

Section Quiet.

Variable fw : Framework.
Hypothesis Hquiet : quiet fw.

Lemma invoke_quiet c w : invoke fw c w = (inr (), log_call c w).
Proof. unfold invoke. by rewrite Hquiet. Qed.

Lemma set_seed_quiet seed a w :
  in_world (tf_random_set_seed fw seed) (a, w)
  = (inr (), (a, set_global_seed seed (log_call (CSetSeed seed) w))).
Proof.
  rewrite in_world_run. unfold tf_random_set_seed.
  by rewrite bind_run, invoke_quiet.
Qed.

Lemma Adam_quiet lr a w :
  in_world (keras_optimizers_Adam fw lr) (a, w)
  = (inr (PyRef (length (objects w))),
     (a, set_objects
           (objects w ++ [OInst "keras.optimizers.Adam"
                                [("learning_rate", PyFloat lr)]])
           (log_call (CAdam lr) w))).
Proof.
  rewrite in_world_run. unfold keras_optimizers_Adam.
  by rewrite bind_run, invoke_quiet.
Qed.

Lemma build_network_quiet net shape kw a w :
  in_world (build_network fw net shape kw) (a, w)
  = (inr (fw_build_network fw net shape kw),
     (a, log_call (CBuildNetwork net shape kw) w)).
Proof.
  rewrite in_world_run. unfold build_network.
  by rewrite bind_run, invoke_quiet.
Qed.

Lemma Dense_quiet u act ub x a w :
  in_world (keras_layers_Dense fw u act ub x) (a, w)
  = (inr (KDense u act ub x), (a, log_call (CDense u act ub x) w)).
Proof.
  rewrite in_world_run. unfold keras_layers_Dense.
  by rewrite bind_run, invoke_quiet.
Qed.

Lemma Model_quiet i o a w :
  in_world (keras_models_Model fw i o) (a, w)
  = (inr {| inputs := i; outputs := o; compiled := None |},
     (a, log_call (CModel i o) w)).
Proof.
  rewrite in_world_run. unfold keras_models_Model.
  by rewrite bind_run, invoke_quiet.
Qed.

Lemma compile_quiet m l o ms a w :
  in_world (Model_compile fw m l o ms) (a, w)
  = (inr {| inputs := inputs m; outputs := outputs m;
            compiled := Some {| c_loss := l; c_optimizer := o;
                                c_metrics := ms |} |},
     (a, log_call (CCompile m l o ms) w)).
Proof.
  rewrite in_world_run. unfold Model_compile.
  by rewrite bind_run, invoke_quiet.
Qed.

Lemma summary_quiet m a w :
  in_world (Model_summary fw m) (a, w) = (inr (), (a, log_call (CSummary m) w)).
Proof. rewrite in_world_run. unfold Model_summary. by rewrite invoke_quiet. Qed.

Lemma fit_quiet m X y bs ep vb cbs a w :
  in_world (Model_fit fw m X y bs ep vb cbs) (a, w)
  = (inr (fw_history fw (after_training fw (CFit m X y bs ep vb cbs) cbs w)
                     (CFit m X y bs ep vb cbs)),
     (a, after_training fw (CFit m X y bs ep vb cbs) cbs w)).
Proof.
  rewrite in_world_run. unfold Model_fit.
  by rewrite bind_run, invoke_quiet.
Qed.

(** One statement of a method, run. *)
Ltac run1 :=
  rewrite bind_run;
  first [ rewrite self_get_run | rewrite self_set_run | rewrite set_seed_quiet
        | rewrite Adam_quiet | rewrite new_object_run
        | rewrite build_network_quiet | rewrite Dense_quiet
        | rewrite Model_quiet | rewrite compile_quiet
        | rewrite summary_quiet | rewrite fit_quiet
        | rewrite ret_run
        | erewrite self_attr_run by reflexivity ];
  cbv beta iota.

(** [build_model] in a quiet framework: the model returned, the adapter
    and the process afterwards. *)
Lemma build_model_quiet (a : ResNetRegressor) (w : World)
    (shape : list nat) (kwargs : dict) :
  "tensorflow" ∈ installed w →
  build_model fw shape kwargs (a, w)
  = (inr (compiled_model fw a shape kwargs (objects w)),
     (set_optimizer_ (resolved_optimizer a (objects w)) a,
      after_build_model fw a shape kwargs w)).
Proof.
  unfold build_model, after_build_model, compiled_model, build_model_calls, assembled_model,
    resolved_optimizer, resolved_metrics, optimizer_objects, optimizer_calls,
    metrics_objects.
  intros Htf. do 2 (rewrite bind_run, import_run by done; cbv beta iota).
  do 3 run1.
  destruct (optimizer a) eqn:Ho; do 3 run1; cbn [metrics set_optimizer_];
    destruct (metrics a) eqn:Hm; do 3 run1;
    destruct (fw_build_network _ _ _ _) as [i o]; repeat run1;
    rewrite ret_run; cbn; unfold log_call, set_objects, set_global_seed;
    cbn; rewrite <- ?app_assoc; cbn; rewrite ?app_nil_r;
    reflexivity.
Qed.

End Quiet.

(** ** What a computation leaves alone

    Apart from [tf.random.set_seed], nothing the adapter runs touches the
    global seed, and calls are only ever added to the log. *)

Lemma seed_kept_refl w : seed_kept w w.
Proof. by split. Qed.

Lemma seed_kept_trans w1 w2 w3 :
  seed_kept w1 w2 → seed_kept w2 w3 → seed_kept w1 w3.
Proof.
  intros [Hs1 Hc1] [Hs2 Hc2]. split; [congruence|]. by etrans.
Qed.

Lemma seed_kept_log c w : seed_kept w (log_call c w).
Proof. split; [done|]. by apply prefix_app_r. Qed.

Lemma keeps_seed_ret {A} (x : A) : keeps_seed (mret x).
Proof. intros a w r a' w' [= <- <- <-]. apply seed_kept_refl. Qed.

Lemma keeps_seed_bind {A B} (m : M State A) (f : A → M State B) :
  keeps_seed m → (∀ x, keeps_seed (f x)) → keeps_seed (m ≫= f).
Proof.
  intros Hm Hf a w r a' w'. rewrite bind_run.
  destruct (m (a, w)) as [[e | x] [a1 w1]] eqn:Hrun.
  - intros [= <- <- <-]. eauto.
  - intros Hrest. eapply seed_kept_trans; [by eapply Hm|by eapply Hf].
Qed.

Lemma keeps_seed_self_get {A} (f : ResNetRegressor → A) :
  keeps_seed (self_get f).
Proof. intros a w r a' w' [= <- <- <-]. apply seed_kept_refl. Qed.

Lemma keeps_seed_self_set u : keeps_seed (self_set u).
Proof. intros a w r a' w' [= <- <- <-]. apply seed_kept_refl. Qed.

Lemma keeps_seed_self_attr {A} name (f : ResNetRegressor → option A) :
  keeps_seed (self_attr name f).
Proof.
  intros a w r a' w'. unfold self_attr. simpl.
  destruct (f a); intros [= <- <- <-]; apply seed_kept_refl.
Qed.

Lemma keeps_seed_in_world {A} (m : M World A) :
  keeps_seed_world m → keeps_seed (in_world m).
Proof.
  intros Hm a w r a' w'. rewrite in_world_run.
  destruct (m w) as [r1 w1] eqn:Hrun. intros [= <- <- <-]. eauto.
Qed.

Lemma keeps_seed_world_ret {A} (x : A) : keeps_seed_world (mret x).
Proof. intros w r w' [= <- <-]. apply seed_kept_refl. Qed.

Lemma keeps_seed_world_bind {A B} (m : M World A) (f : A → M World B) :
  keeps_seed_world m → (∀ x, keeps_seed_world (f x)) →
  keeps_seed_world (m ≫= f).
Proof.
  intros Hm Hf w r w'. rewrite bind_run.
  destruct (m w) as [[e | x] w1] eqn:Hrun.
  - intros [= <- <-]. eauto.
  - intros Hrest. eapply seed_kept_trans; [by eapply Hm|by eapply Hf].
Qed.

Lemma keeps_seed_invoke fw c : keeps_seed_world (invoke fw c).
Proof.
  intros w r w'. unfold invoke.
  destruct (fw_raises fw w c); intros [= <- <-]; apply seed_kept_log.
Qed.

Lemma keeps_seed_new_object o : keeps_seed_world (new_object o).
Proof. intros w r w' [= <- <-]. by split. Qed.

Lemma keeps_seed_gets {A} (f : World → A) : keeps_seed_world (gets f).
Proof. intros w r w' [= <- <-]. apply seed_kept_refl. Qed.

Create HintDb seed discriminated.

#[local] Hint Resolve keeps_seed_ret keeps_seed_self_get keeps_seed_self_set
  keeps_seed_self_attr keeps_seed_in_world keeps_seed_world_ret
  keeps_seed_invoke keeps_seed_new_object keeps_seed_gets : seed.

Ltac keeps_seed_steps :=
  repeat first
    [ apply keeps_seed_bind; [|intros ?]
    | apply keeps_seed_world_bind; [|intros ?]
    | progress eauto with seed
    | match goal with
      | |- keeps_seed (match ?x with _ => _ end) => destruct x
      | |- keeps_seed_world (match ?x with _ => _ end) => destruct x
      | |- keeps_seed (let '(_, _) := ?x in _) => destruct x
      end ].

Lemma keeps_seed_Adam fw lr : keeps_seed_world (keras_optimizers_Adam fw lr).
Proof. unfold keras_optimizers_Adam. keeps_seed_steps. Qed.

Lemma keeps_seed_build_network fw net shape kw :
  keeps_seed_world (build_network fw net shape kw).
Proof. unfold build_network. keeps_seed_steps. Qed.

Lemma keeps_seed_Dense fw u act ub x :
  keeps_seed_world (keras_layers_Dense fw u act ub x).
Proof. unfold keras_layers_Dense. keeps_seed_steps. Qed.

Lemma keeps_seed_Model fw i o : keeps_seed_world (keras_models_Model fw i o).
Proof. unfold keras_models_Model. keeps_seed_steps. Qed.

Lemma keeps_seed_compile fw m l o ms :
  keeps_seed_world (Model_compile fw m l o ms).
Proof. unfold Model_compile. keeps_seed_steps. Qed.

#[local] Hint Resolve keeps_seed_Adam keeps_seed_build_network
  keeps_seed_Dense keeps_seed_Model keeps_seed_compile : seed.

(** [build_model] is the imports and the seeding, followed by statements
    that keep the seed. *)
Lemma build_model_after_seeding (fw : Framework) (shape : list nat)
    (kwargs : dict) :
  ∃ rest : M State Model,
    keeps_seed rest
    ∧ ∀ s, build_model fw shape kwargs s
           = (in_world (import_module "tensorflow") ;;
              in_world (import_module "tensorflow") ;;
              seed ← self_get random_state;
              in_world (tf_random_set_seed fw seed) ;; rest) s.
Proof.
  eexists. split; [|intros s; unfold build_model; reflexivity].
  keeps_seed_steps.
Qed.

(** ** [build_model] *)

Lemma calls_since_app (w w' : World) (new : list call) :
  calls w' = calls w ++ new → calls_since w w' = new.
Proof. unfold calls_since. intros ->. by rewrite drop_app_length. Qed.

Lemma calls_since_build (fw : Framework) (a : ResNetRegressor)
    (shape : list nat) (kwargs : dict) (w : World) :
  calls_since w (after_build_model fw a shape kwargs w)
  = build_model_calls fw a shape kwargs (objects w).
Proof. by apply calls_since_app. Qed.

Lemma objects_kept_build (fw : Framework) (a : ResNetRegressor)
    (shape : list nat) (kwargs : dict) (w : World) (l : loc) (o : obj) :
  objects w !! l = Some o →
  objects (after_build_model fw a shape kwargs w) !! l = Some o.
Proof. intros Hl. by apply lookup_app_l_Some. Qed.

(** C8.  Where tensorflow is installed, whatever the framework does, the
    first call [build_model] makes into it is [tf.random.set_seed] with the
    adapter's configured seed; it precedes every other call of the build.
    When the framework accepts the call, the process-wide seed is the
    adapter's seed from then on: nothing else in the build changes it,
    whether the build succeeds or not, and it is the seed any computation
    that runs afterwards in the process starts from. *)
Theorem build_model_seeds_first (fw : Framework) (a : ResNetRegressor)
    (w : World) (shape : list nat) (kwargs : dict) :
  "tensorflow" ∈ installed w →
  let w' := (build_model fw shape kwargs (a, w)).2.2 in
  (∃ rest, calls w' = calls w ++ CSetSeed (random_state a) :: rest)
  ∧ tf_global_seed w'
    = match fw_raises fw w (CSetSeed (random_state a)) with
      | None => random_state a
      | Some _ => tf_global_seed w
      end.
Proof.
  intros Htf.
  destruct (build_model_after_seeding fw shape kwargs) as (rest & Hrest & ->).
  do 2 (rewrite bind_run, import_run by done; cbv beta iota).
  rewrite bind_run, self_get_run. cbv beta iota.
  rewrite bind_run, in_world_run. unfold tf_random_set_seed.
  rewrite bind_run. unfold invoke.
  destruct (fw_raises fw w (CSetSeed (random_state a))) as [e|]; simpl.
  - split; [by exists []|done].
  - destruct (rest _) as [r [a' w']] eqn:Hrun.
    apply Hrest in Hrun as [Hseed [more Hcalls]]. simpl in *.
    split; [|done]. exists more. by rewrite Hcalls, <- app_assoc.
Qed.

(** C2.  In a quiet framework, where tensorflow is installed, [build_model] returns a model and resolves
    the optimizer: with no optimizer configured it constructs an Adam
    optimizer with learning rate 0.01, a new object; a configured optimizer
    is taken as it is, no optimizer is constructed and no object existing
    before is changed.  The resolved optimizer is stored as [optimizer_]
    and is the one the model is compiled with. *)
Theorem build_model_resolves_optimizer (fw : Framework)
    (a : ResNetRegressor) (w : World) (shape : list nat) (kwargs : dict) :
  quiet fw →
  "tensorflow" ∈ installed w →
  ∃ model a' w' chosen,
    build_model fw shape kwargs (a, w) = (inr model, (a', w'))
    ∧ optimizer_ a' = Some chosen
    ∧ c_optimizer <$> compiled model = Some chosen
    ∧ (∃ m l ms, last (calls_since w w') = Some (CCompile m l chosen ms))
    ∧ match optimizer a with
      | PyNone =>
          chosen = PyRef (length (objects w))
          ∧ objects w' !! length (objects w)
            = Some (OInst "keras.optimizers.Adam"
                          [("learning_rate", PyFloat (1 # 100))])
          ∧ filter is_adam_call (calls_since w w') = [CAdam (1 # 100)]
      | supplied =>
          chosen = supplied
          ∧ filter is_adam_call (calls_since w w') = []
      end
    ∧ (∀ l o, objects w !! l = Some o → objects w' !! l = Some o).
Proof.
  intros Hq Htf. eexists _, _, _, _.
  split; [by apply build_model_quiet|].
  rewrite calls_since_build. unfold build_model_calls.
  split; [reflexivity|]. split; [reflexivity|].
  split.
  { eexists _, _, _. unfold optimizer_calls. by destruct (optimizer a). }
  split; [|by apply objects_kept_build].
  cbn [objects after_build_model].
  unfold resolved_optimizer, optimizer_calls, optimizer_objects.
  destruct (optimizer a); try done.
  split; [done|]. split; [|done].
  rewrite lookup_app_r by lia. rewrite Nat.sub_diag. reflexivity.
Qed.

(** C3.  In a quiet framework, where tensorflow is installed, [build_model] returns a model and resolves
    the metrics: with no metrics configured the model is compiled with a new
    list that holds exactly one metric, mean squared error; a configured
    list is the very object the model is compiled with, and no object
    existing before the build is changed by it. *)
Theorem build_model_resolves_metrics (fw : Framework)
    (a : ResNetRegressor) (w : World) (shape : list nat) (kwargs : dict) :
  quiet fw →
  "tensorflow" ∈ installed w →
  ∃ model a' w' chosen,
    build_model fw shape kwargs (a, w) = (inr model, (a', w'))
    ∧ c_metrics <$> compiled model = Some chosen
    ∧ (∃ m l o, last (calls_since w w') = Some (CCompile m l o chosen))
    ∧ match metrics a with
      | PyNone =>
          ∃ l, chosen = PyRef l
               ∧ length (objects w) ≤ l
               ∧ objects w' !! l = Some (OList [PyStr "mean_squared_error"])
      | supplied => chosen = supplied
      end
    ∧ (∀ l o, objects w !! l = Some o → objects w' !! l = Some o).
Proof.
  intros Hq Htf. eexists _, _, _, _.
  split; [by apply build_model_quiet|].
  rewrite calls_since_build. unfold build_model_calls.
  split; [reflexivity|].
  split.
  { eexists _, _, _. unfold optimizer_calls. by destruct (optimizer a). }
  split; [|by apply objects_kept_build].
  cbn [objects after_build_model]. unfold resolved_metrics, metrics_objects.
  destruct (metrics a); try done.
  eexists. split; [done|]. split; [rewrite length_app; lia|].
  rewrite app_assoc, lookup_app_r by done. rewrite Nat.sub_diag. reflexivity.
Qed.

(** C4.  In a quiet framework, where tensorflow is installed, over a topology provider that honours its
    contract, [build_model] on the shape [(m, d)] returns a model whose
    output is one dense layer of width 1, with the adapter's activation and
    use-bias flag, applied to the output tensor of the topology provider;
    it is the only dense layer the build creates.  The model's input is the
    provider's placeholder, of shape [(m, d)], and its output has shape
    [(1,)] per instance. *)
Theorem build_model_dense_head (fw : Framework) (a : ResNetRegressor)
    (w : World) (m d : nat) (kwargs : dict) :
  quiet fw →
  "tensorflow" ∈ installed w →
  topology_provider fw →
  ∃ model a' w',
    build_model fw [m; d] kwargs (a, w) = (inr model, (a', w'))
    ∧ inputs model = (fw_build_network fw (_network a) [m; d] kwargs).1
    ∧ outputs model
      = KDense 1 (activation a) (use_bias a)
               (fw_build_network fw (_network a) [m; d] kwargs).2
    ∧ filter is_dense_call (calls_since w w')
      = [CDense 1 (activation a) (use_bias a)
                (fw_build_network fw (_network a) [m; d] kwargs).2]
    ∧ tensor_shape (inputs model) = [m; d]
    ∧ tensor_shape (outputs model) = [1].
Proof.
  intros Hq Htf Htopology. eexists _, _, _.
  split; [by apply build_model_quiet|].
  rewrite calls_since_build. unfold build_model_calls, compiled_model.
  cbn [inputs outputs].
  destruct (Htopology (_network a) [m; d] kwargs) as [Hin [features Hout]].
  split; [done|]. split; [done|].
  split; [unfold optimizer_calls; by destruct (optimizer a)|].
  split; [by rewrite Hin|].
  cbn [tensor_shape]. by rewrite Hout.
Qed.

(** ** Construction *)

Lemma init_stores_hyperparameters_run
    (n_epochs callbacks verbose loss metrics batch_size random_state
     activation use_bias optimizer : pyval) (w : World) :
  __init__ n_epochs callbacks verbose loss metrics batch_size random_state
           activation use_bias optimizer w
  = if bool_decide ("tensorflow" ∈ installed w)
    then (inr {| n_epochs := n_epochs; callbacks := callbacks;
                 verbose := verbose; loss := loss; metrics := metrics;
                 batch_size := batch_size; random_state := random_state;
                 activation := activation; use_bias := use_bias;
                 optimizer := optimizer; history := PyNone;
                 _network := {| net_random_state := random_state |};
                 optimizer_ := None; input_shape := None; model_ := None;
                 callbacks_ := None |}, w)
    else (inl (ModuleNotFoundError "tensorflow"), w).
Proof.
  unfold __init__. rewrite bind_run. unfold _check_dl_dependencies.
  by destruct (bool_decide ("tensorflow" ∈ installed w)).
Qed.

(** C6.  Construction raises the dependency-missing error, and does nothing
    else, when tensorflow is not installed.  Otherwise it accepts any values
    whatever: every hyper-parameter is stored as it was given, the topology
    provider is instantiated with the adapter's random seed, the history is
    [None], no model (nor any other fitted attribute) exists yet and the
    process is as before: no call was made into the framework. *)
Theorem init_stores_hyperparameters
    (n_epochs callbacks verbose loss metrics batch_size random_state
     activation use_bias optimizer : pyval) (w : World) :
  __init__ n_epochs callbacks verbose loss metrics batch_size random_state
           activation use_bias optimizer w
  = if bool_decide ("tensorflow" ∈ installed w)
    then (inr {| n_epochs := n_epochs; callbacks := callbacks;
                 verbose := verbose; loss := loss; metrics := metrics;
                 batch_size := batch_size; random_state := random_state;
                 activation := activation; use_bias := use_bias;
                 optimizer := optimizer; history := PyNone;
                 _network := {| net_random_state := random_state |};
                 optimizer_ := None; input_shape := None; model_ := None;
                 callbacks_ := None |}, w)
    else (inl (ModuleNotFoundError "tensorflow"), w).
Proof.
  unfold __init__. rewrite bind_run. unfold _check_dl_dependencies.
  by destruct (bool_decide ("tensorflow" ∈ installed w)).
Qed.

(** ** Test parameters *)

Lemma get_test_params_without_keras (fw : Framework) (set : string)
    (w : World) :
  "keras" ∉ installed w →
  get_test_params fw set w
  = (inr [[("n_epochs", PyInt 6); ("batch_size", PyInt 4);
           ("use_bias", PyBool false)];
          [("n_epochs", PyInt 4); ("batch_size", PyInt 6);
           ("use_bias", PyBool true)]], w).
Proof.
  intros Hkeras. unfold get_test_params. rewrite bind_run.
  unfold _check_soft_dependencies. by rewrite bool_decide_eq_false_2.
Qed.

Lemma get_test_params_with_keras (fw : Framework) (set : string)
    (w : World) :
  "keras" ∈ installed w →
  fw_raises fw w CLambdaCallback = None →
  get_test_params fw set w
  = (inr [[("n_epochs", PyInt 6); ("batch_size", PyInt 4);
           ("use_bias", PyBool false)];
          [("n_epochs", PyInt 4); ("batch_size", PyInt 6);
           ("use_bias", PyBool true)];
          [("n_epochs", PyInt 2);
           ("callbacks", PyRef (S (length (objects w))))]],
     {| installed := installed w; classes := classes w;
        tf_global_seed := tf_global_seed w;
        calls := calls w ++ [CLambdaCallback];
        objects := objects w
                   ++ [OInst "keras.callbacks.LambdaCallback" [];
                       OList [PyRef (length (objects w))]] |}).
Proof.
  intros Hkeras Hquiet. unfold get_test_params. rewrite bind_run.
  unfold _check_soft_dependencies. rewrite bool_decide_eq_true_2 by done.
  cbv beta iota. rewrite bind_run. unfold import_module.
  rewrite bool_decide_eq_true_2 by done. cbv beta iota.
  rewrite bind_run. unfold keras_callbacks_LambdaCallback.
  rewrite bind_run. unfold invoke. rewrite Hquiet. cbn.
  rewrite bind_run. unfold new_object, alloc. cbn.
  rewrite length_app, <- app_assoc. cbn. by rewrite Nat.add_1_r.
Qed.

(** ** [_fit] *)

Lemma deepcopy_world (x : pyval) (w w' : World) (r : exn + pyval) :
  deepcopy x w = (r, w') → w' = set_objects (objects w') w.
Proof.
  unfold deepcopy.
  destruct (deepcopy_rec _ _ _) as [r' [m h]]. by intros [= <- <-].
Qed.

Lemma check_random_state_world (seed : pyval) (w w' : World)
    (r : exn + ()) :
  check_random_state seed w = (r, w') → w' = w.
Proof.
  unfold check_random_state. intros Hrun.
  repeat match type of Hrun with
         | (inr _, _) = _ => injection Hrun as <- <-
         | (inl _, _) = _ => injection Hrun as <- <-
         | context [match ?x with _ => _ end] => destruct x
         | context [if ?x then _ else _] => destruct x
         end; reflexivity.
Qed.

Section QuietFit.

Variable fw : Framework.
Hypothesis Hquiet : quiet fw.

Ltac run1 :=
  rewrite bind_run;
  first [ rewrite self_get_run | rewrite self_set_run
        | rewrite summary_quiet by done | rewrite fit_quiet by done
        | rewrite build_model_quiet by done
        | rewrite ret_run
        | erewrite self_attr_run by reflexivity ];
  cbv beta iota.

(** [_fit] in a quiet framework, on a three-dimensional array and a seed
    that passes the check: everything up to the copy of the callbacks
    succeeds; if the copy succeeds, so does the rest. *)
Lemma _fit_quiet (a : ResNetRegressor) (w : World) (X y Xt : ndarray) :
  "tensorflow" ∈ installed w →
  transpose X [0; 2; 1] = inr Xt →
  check_random_state (random_state a) w = (inr (), w) →
  let shape := tail (nd_shape Xt) in
  let a2 := adapter_before_copy fw a shape w in
  _fit fw X y (a, w)
  = match deepcopy (callbacks a) (before_copy fw a shape w) with
    | (inl e, w3) => (inl e, (a2, w3))
    | (inr copied, w3) =>
        let c := training_call fw a shape w Xt y copied in
        let w' := after_training fw c copied w3 in
        let a' := set_history (fw_history fw w' c)
                              (set_callbacks_ copied a2) in
        (inr a', (a', w'))
    end.
Proof.
  intros Htf HX Hseed shape a2. unfold _fit.
  rewrite bind_run. unfold py at 1. rewrite HX. cbv beta iota.
  run1. rewrite bind_run, in_world_run, Hseed. cbv beta iota.
  do 3 run1. fold shape.
  change (compiled_model fw (set_input_shape shape a) shape [] (objects w))
    with (compiled_model fw a shape [] (objects w)).
  change (after_build_model fw (set_input_shape shape a) shape [] w)
    with (after_build_model fw a shape [] w).
  change (resolved_optimizer (set_input_shape shape a) (objects w))
    with (resolved_optimizer a (objects w)).
  do 2 run1. rewrite bind_run, in_world_run.
  cbn [gets set_model_ set_optimizer_ set_input_shape verbose].
  cbv beta iota. rewrite bind_run.
  unfold before_copy, a2, adapter_before_copy, training_call.
  destruct (truthy _ _).
  - run1. rewrite summary_quiet by done. cbv beta iota.
    run1. rewrite bind_run, in_world_run.
    destruct (deepcopy _ _) as [[e | copied] w3]; [reflexivity|].
    cbv beta iota. repeat run1. reflexivity.
  - rewrite ret_run. cbv beta iota.
    run1. rewrite bind_run, in_world_run.
    destruct (deepcopy _ _) as [[e | copied] w3]; [reflexivity|].
    cbv beta iota. repeat run1. reflexivity.
Qed.

End QuietFit.

(** ** [copy.deepcopy] *)

Lemma extends_refl h : extends h h.
Proof. by split. Qed.

Lemma extends_trans h1 h2 h3 : extends h1 h2 → extends h2 h3 → extends h1 h3.
Proof.
  intros [Hl1 H1] [Hl2 H2]. split; [lia|].
  intros l Hl. rewrite H2 by lia. by apply H1.
Qed.

Lemma extends_app h more : extends h (h ++ more).
Proof.
  split; [rewrite length_app; lia|]. intros l Hl. by apply lookup_app_l.
Qed.

Lemma extends_lookup h h' l o : extends h h' → h !! l = Some o → h' !! l = Some o.
Proof.
  intros [_ H] Hl. rewrite H; [done|]. by eapply lookup_lt_Some.
Qed.

Lemma extends_insert h h' l o :
  extends h h' → length h ≤ l → extends h (<[l := o]> h').
Proof.
  intros [Hlen H] Hl. split; [by rewrite length_insert|].
  intros k Hk. rewrite list_lookup_insert_ne by lia. by apply H.
Qed.

Lemma isolated_mono n len len' v :
  len ≤ len' → isolated n len v → isolated n len' v.
Proof. destruct v; simpl; try done. lia. Qed.

Lemma memo_get_elem k k' (m : memo) : memo_get k m = Some k' → (k, k') ∈ m.
Proof.
  induction m as [|[a b] m IH]; simpl; [done|].
  destruct (a =? k) eqn:Hak.
  - apply Nat.eqb_eq in Hak as ->. intros [= ->]. left.
  - intros Hm. right. by apply IH.
Qed.

Lemma memo_get_None k (m : memo) : memo_get k m = None → k ∉ m.*1.
Proof.
  induction m as [|[a b] m IH]; simpl; [intros _; apply not_elem_of_nil|].
  destruct (a =? k) eqn:Hak; [done|]. apply Nat.eqb_neq in Hak.
  intros Hm. apply not_elem_of_cons. split; [done|]. by apply IH.
Qed.

Lemma memo_get_app_r k (added m : memo) :
  k ∉ added.*1 → memo_get k (added ++ m) = memo_get k m.
Proof.
  induction added as [|[a b] added IH]; simpl; [done|].
  intros [Hne Hk]%not_elem_of_cons.
  destruct (a =? k) eqn:Hak; [by apply Nat.eqb_eq in Hak|]. by apply IH.
Qed.

Lemma memo_get_app_l k k' (added m : memo) :
  NoDup (added ++ m).*1 → memo_get k m = Some k' →
  memo_get k (added ++ m) = Some k'.
Proof.
  intros Hnodup Hk. rewrite memo_get_app_r; [done|].
  rewrite fmap_app in Hnodup. apply NoDup_app in Hnodup as (_ & Hdisj & _).
  intros Hin. apply (Hdisj k Hin).
  apply memo_get_elem in Hk. by apply (list_elem_of_fmap_2 fst) in Hk.
Qed.

Lemma renamed_app (added m : memo) x v :
  NoDup (added ++ m).*1 → renamed m x v → renamed (added ++ m) x v.
Proof.
  intros Hnodup. destruct x; simpl; try done.
  intros (k' & Hk & ->). exists k'. split; [|done]. by apply memo_get_app_l.
Qed.

Lemma copied_entry_stable h0 (added m : memo) h h' e :
  NoDup (added ++ m).*1 → h' !! e.2 = h !! e.2 →
  copied_entry h0 m h e → copied_entry h0 (added ++ m) h' e.
Proof.
  intros Hnodup Hsame. unfold copied_entry.
  destruct (h0 !! e.1) as [[items | cls attrs]|]; [| |done].
  - intros (items' & Hl & Hitems). exists items'. rewrite Hsame.
    split; [done|]. eapply Forall2_impl; [done|].
    intros x v. by apply renamed_app.
  - intros (attrs' & Hl & Hkeys & Hvalues). exists attrs'. rewrite Hsame.
    split; [done|]. split; [done|]. eapply Forall2_impl; [done|].
    intros x v. by apply renamed_app.
Qed.

Lemma renamed_isolated h0 m h x v :
  copying h0 m h → renamed m x v → isolated (length h0) (length h) v.
Proof.
  intros Hinv. destruct x; simpl; try by intros ->.
  intros (k' & Hk & ->). simpl.
  apply memo_get_elem in Hk.
  pose proof (copying_memo _ _ _ Hinv) as Hm.
  rewrite Forall_forall in Hm. by destruct (Hm _ Hk).
Qed.

Lemma memo_keys_bound h0 m h :
  copying h0 m h → length m ≤ length h0.
Proof.
  intros Hinv.
  assert (m.*1 ⊆+ seq 0 (length h0)) as Hsub.
  { apply NoDup_submseteq; [by apply (copying_nodup _ _ _ Hinv)|].
    intros k [[k1 k2] [-> Hin]]%list_elem_of_fmap.
    pose proof (copying_memo _ _ _ Hinv) as Hm.
    rewrite Forall_forall in Hm. destruct (Hm _ Hin) as [Hk _].
    apply elem_of_seq. simpl in *. lia. }
  apply submseteq_length in Hsub.
  by rewrite length_fmap, length_seq in Hsub.
Qed.

Lemma copy_alloc_run o (m : memo) (h : heap) :
  copy_alloc o (m, h) = (inr (length h), (m, h ++ [o])).
Proof. reflexivity. Qed.

Lemma memo_set_run l l' (m : memo) (h : heap) :
  memo_set l l' (m, h) = (inr (), ((l, l') :: m, h)).
Proof. reflexivity. Qed.

Lemma list_append_run l v items (m : memo) (h : heap) :
  h !! l = Some (OList items) →
  list_append l v (m, h) = (inr (), (m, <[l := OList (items ++ [v])]> h)).
Proof. intros Hl. unfold list_append, modify. by rewrite Hl. Qed.

Lemma dict_update_run l state cls attrs (m : memo) (h : heap) :
  h !! l = Some (OInst cls attrs) →
  dict_update l state (m, h)
  = (inr (), (m, <[l := OInst cls (attrs ++ state)]> h)).
Proof. intros Hl. unfold dict_update, modify. by rewrite Hl. Qed.

(** Writing a finished or growing copy into a new object keeps the
    invariant. *)
Lemma copying_insert h0 m h l o :
  copying h0 m h → length h0 ≤ l →
  Forall (isolated (length h0) (length h)) (obj_values o) →
  copying h0 m (<[l := o]> h).
Proof.
  intros [Hold Hmemo Hnodup Hnew] Hl Ho. split.
  - by apply extends_insert.
  - by rewrite length_insert.
  - done.
  - intros k o' Hk. rewrite length_insert.
    destruct (decide (l = k)) as [->|Hne].
    + intros Hlookup. assert (k < length h) as Hlt.
      { apply lookup_lt_Some in Hlookup. by rewrite length_insert in Hlookup. }
      rewrite list_lookup_insert_eq in Hlookup by done.
      by injection Hlookup as <-.
    + rewrite list_lookup_insert_ne by done. by apply Hnew.
Qed.

(** Allocating the empty copy of the object at [l] and entering it into the
    memo keeps the invariant. *)
Lemma copying_alloc h0 m h l o :
  copying h0 m h → l < length h0 → memo_get l m = None →
  obj_values o = [] →
  copying h0 ((l, length h) :: m) (h ++ [o]).
Proof.
  intros [Hold Hmemo Hnodup Hnew] Hl Hmiss Ho.
  pose proof Hold as [Hlen _]. split.
  - eapply extends_trans; [done|apply extends_app].
  - rewrite length_app. simpl. constructor; [simpl; lia|].
    eapply Forall_impl; [done|]. simpl. intros e. lia.
  - simpl. constructor; [by apply memo_get_None|done].
  - intros k o' Hk Hlookup. rewrite length_app. simpl.
    destruct (decide (k < length h)) as [Hlt|Hge].
    + rewrite lookup_app_l in Hlookup by done.
      eapply Forall_impl; [by eapply Hnew|].
      intros v. apply isolated_mono. lia.
    + rewrite lookup_app_r in Hlookup by lia.
      destruct (k - length h) as [|k0]; simpl in Hlookup; [|done].
      injection Hlookup as <-. rewrite Ho. constructor.
Qed.

Section Loops.

Variable h0 : heap.
Variable copy : pyval → M (memo * heap) pyval.
Variable budget : nat.
Hypothesis Hcopy : copy_ok h0 copy budget.

(** The loop of a list copy. *)
Lemma copy_items_ok (l' : loc) (items : list pyval) :
  ∀ (done : list pyval) (m : memo) (h : heap),
    copying h0 m h →
    Forall (refers_below (length h0)) items →
    length h0 ≤ budget + length m →
    length h0 ≤ l' →
    h !! l' = Some (OList done) →
    ∃ m' h' items',
      copy_items copy l' items (m, h) = (inr (), (m', h'))
      ∧ copying h0 m' h'
      ∧ length h ≤ length h'
      ∧ (∀ l, l < length h → l ≠ l' → h' !! l = h !! l)
      ∧ h' !! l' = Some (OList (done ++ items'))
      ∧ Forall2 (renamed m') items items'
      ∧ ∃ added,
          m' = added ++ m
          ∧ Forall (λ e, length h ≤ e.2) added
          ∧ Forall (copied_entry h0 m' h') added.
Proof.
  induction items as [|a rest IH]; intros done m h Hinv Hitems Hbudget Hl' Hdone.
  - exists m, h, []. simpl. rewrite app_nil_r.
    split_and!; try done. by exists [].
  - apply Forall_cons in Hitems as [Ha Hrest].
    destruct (Hcopy a m h Hinv Ha Hbudget) as (v & m1 & h1 & Hrun & Hpost).
    destruct Hpost as [Hinv1 Hext1 (added1 & -> & Hfresh1 & Hentries1) Hv].
    assert (l' < length h) as Hl'h by (by eapply lookup_lt_Some).
    assert (h1 !! l' = Some (OList done)) as Hdone1
      by (by eapply extends_lookup).
    set (h2 := <[l' := OList (done ++ [v])]> h1).
    assert (copying h0 (added1 ++ m) h2) as Hinv2.
    { apply copying_insert; [done|done|]. simpl.
      apply Forall_app. split.
      - by apply (copying_new _ _ _ Hinv1 l' (OList done)).
      - constructor; [|done]. by eapply renamed_isolated. }
    destruct (IH (done ++ [v]) (added1 ++ m) h2 Hinv2 Hrest)
      as (m' & h' & items' & Hrun' & Hinv' & Hlen' & Hsame' & Hl'' & Hitems'
          & added2 & -> & Hfresh2 & Hentries2).
    { rewrite length_app. lia. }
    { done. }
    { unfold h2. apply list_lookup_insert_eq. destruct Hext1. lia. }
    assert (length h2 = length h1) as Hlen2 by apply length_insert.
    destruct Hext1 as [Hlen1 Hsame1].
    exists (added2 ++ added1 ++ m), h', (v :: items').
    split.
    { simpl. rewrite bind_run, Hrun. rewrite bind_run.
      by erewrite list_append_run. }
    split; [done|]. split; [lia|].
    split.
    { intros l Hl Hne. rewrite Hsame' by lia. unfold h2.
      rewrite list_lookup_insert_ne by done. by apply Hsame1. }
    split; [by rewrite <- app_assoc in Hl''|].
    split.
    { constructor; [|done]. apply renamed_app; [|done].
      apply (copying_nodup _ _ _ Hinv'). }
    exists (added2 ++ added1). split; [by rewrite app_assoc|].
    split.
    { apply Forall_app. split; [|done].
      eapply Forall_impl; [exact Hfresh2|]. intros e. cbv beta. lia. }
    apply Forall_app. split; [done|].
    rewrite Forall_forall in Hentries1, Hfresh1.
    apply Forall_forall. intros e He.
    apply (copied_entry_stable h0 added2 (added1 ++ m) h1 h');
      [apply (copying_nodup _ _ _ Hinv')| |by auto].
    pose proof (copying_memo _ _ _ Hinv1) as Hm1.
    rewrite Forall_forall in Hm1.
    destruct (Hm1 e) as [_ [_ He2]]; [apply elem_of_app; by left|].
    specialize (Hfresh1 e He). simpl in *.
    rewrite Hsame' by lia. unfold h2.
    apply list_lookup_insert_ne. lia.
Qed.

(** The loop of an attribute dictionary copy. *)
Lemma copy_dict_ok (attrs : list (string * pyval)) :
  ∀ (m : memo) (h : heap),
    copying h0 m h →
    Forall (refers_below (length h0)) attrs.*2 →
    length h0 ≤ budget + length m →
    ∃ m' h' state,
      copy_dict copy attrs (m, h) = (inr state, (m', h'))
      ∧ copying h0 m' h'
      ∧ extends h h'
      ∧ state.*1 = attrs.*1
      ∧ Forall2 (renamed m') attrs.*2 state.*2
      ∧ ∃ added,
          m' = added ++ m
          ∧ Forall (λ e, length h ≤ e.2) added
          ∧ Forall (copied_entry h0 m' h') added.
Proof.
  induction attrs as [|[k a] rest IH]; intros m h Hinv Hattrs Hbudget.
  - exists m, h, []. simpl.
    split_and!; first [done | apply extends_refl | by exists []].
  - simpl in Hattrs. apply Forall_cons in Hattrs as [Ha Hrest].
    destruct (Hcopy a m h Hinv Ha Hbudget) as (v & m1 & h1 & Hrun & Hpost).
    destruct Hpost as [Hinv1 Hext1 (added1 & -> & Hfresh1 & Hentries1) Hv].
    destruct (IH (added1 ++ m) h1 Hinv1 Hrest)
      as (m' & h' & state & Hrun' & Hinv' & Hext' & Hkeys & Hvalues
          & added2 & -> & Hfresh2 & Hentries2).
    { rewrite length_app. lia. }
    exists (added2 ++ added1 ++ m), h', ((k, v) :: state).
    split.
    { simpl. rewrite bind_run, Hrun. by rewrite bind_run, Hrun'. }
    split; [done|]. split; [by eapply extends_trans|].
    split; [rewrite !fmap_cons; by rewrite Hkeys|].
    split.
    { rewrite !fmap_cons. constructor; [|done]. apply renamed_app; [|done].
      apply (copying_nodup _ _ _ Hinv'). }
    exists (added2 ++ added1). split; [by rewrite app_assoc|].
    destruct Hext1 as [Hlen1 Hsame1]. destruct Hext' as [Hlen' Hsame'].
    split.
    { apply Forall_app. split; [|done].
      eapply Forall_impl; [exact Hfresh2|]. intros e. cbv beta. lia. }
    apply Forall_app. split; [done|].
    rewrite Forall_forall in Hentries1.
    apply Forall_forall. intros e He.
    apply (copied_entry_stable h0 added2 (added1 ++ m) h1 h');
      [apply (copying_nodup _ _ _ Hinv')| |by auto].
    pose proof (copying_memo _ _ _ Hinv1) as Hm1.
    rewrite Forall_forall in Hm1.
    destruct (Hm1 e) as [_ [_ He2]]; [apply elem_of_app; by left|].
    by apply Hsame'.
Qed.

End Loops.

Lemma renamed_all_isolated h0 m h xs vs :
  copying h0 m h → Forall2 (renamed m) xs vs →
  Forall (isolated (length h0) (length h)) vs.
Proof.
  intros Hinv. induction 1 as [|x v xs vs Hv _ IH]; constructor; [|done].
  by eapply renamed_isolated.
Qed.

(** A value that is atomic or already in the memo is copied at once. *)
Lemma copies_nothing h0 m h x v :
  copying h0 m h → renamed m x v → copies h0 m h x v m h.
Proof.
  intros Hinv Hv. split; [done|apply extends_refl| |done].
  by exists [].
Qed.

(** On a closed heap the recursion succeeds within its budget: it returns
    the copy, with every object it entered into the memo finished. *)
Lemma deepcopy_rec_ok (h0 : heap) :
  closed h0 → ∀ fuel, copy_ok h0 (deepcopy_rec fuel) fuel.
Proof.
  intros Hclosed fuel.
  induction fuel as [|fuel IH]; intros x m h Hinv Hx Hbudget.
  - destruct x as [| b | z | q | s | l];
      try (eexists _, m, h; split; [reflexivity|];
           by apply copies_nothing).
    simpl. rewrite bind_run. cbn [gets id].
    destruct (memo_get l m) as [l'|] eqn:Hmemo.
    + eexists _, m, h. split; [reflexivity|].
      apply copies_nothing; [done|]. simpl. eauto.
    + exfalso. simpl in Hx.
      assert (copying h0 ((l, length h) :: m) (h ++ [OList []])) as Hinv1
        by (by apply copying_alloc).
      apply memo_keys_bound in Hinv1. simpl in Hinv1. lia.
  - destruct x as [| b | z | q | s | l];
      try (eexists _, m, h; split; [reflexivity|];
           by apply copies_nothing).
    simpl. rewrite bind_run. cbn [gets id].
    destruct (memo_get l m) as [l'|] eqn:Hmemo.
    { eexists _, m, h. split; [reflexivity|].
      apply copies_nothing; [done|]. simpl. eauto. }
    simpl in Hx.
    destruct (lookup_lt_is_Some_2 h0 l Hx) as [o Ho].
    assert (h !! l = Some o) as Hl
      by (eapply extends_lookup; [apply (copying_old _ _ _ Hinv)|done]).
    pose proof (Hclosed l o Ho) as Hvalues.
    rewrite Hl.
    assert (length h0 ≤ length h) as Hlen
      by (by destruct (copying_old _ _ _ Hinv)).
    destruct o as [items | cls attrs].
    + (* a list *)
      assert (copying h0 ((l, length h) :: m) (h ++ [OList []])) as Hinv1
        by (by apply copying_alloc).
      destruct (copy_items_ok h0 (deepcopy_rec fuel) fuel IH (length h) items
                  [] ((l, length h) :: m) (h ++ [OList []]))
        as (m' & h' & items' & Hrun & Hinv' & Hlen' & Hsame' & Hl' & Hitems'
            & added & -> & Hfresh & Hentries); try done.
      { simpl. lia. }
      { rewrite lookup_app_r by done. by rewrite Nat.sub_diag. }
      rewrite length_app in Hlen', Hsame', Hfresh. simpl in Hlen', Hsame', Hfresh.
      exists (PyRef (length h)), (added ++ (l, length h) :: m), h'.
      split.
      { rewrite bind_run, copy_alloc_run. cbv beta iota.
        rewrite bind_run, memo_set_run. cbv beta iota.
        by rewrite bind_run, Hrun. }
      assert (memo_get l (added ++ (l, length h) :: m) = Some (length h))
        as Hget.
      { apply memo_get_app_l; [apply (copying_nodup _ _ _ Hinv')|].
        simpl. by rewrite Nat.eqb_refl. }
      split; [done| | |].
      * split; [lia|]. intros k Hk. rewrite Hsame' by lia.
        by apply lookup_app_l.
      * exists (added ++ [(l, length h)]).
        split; [by rewrite <- app_assoc|].
        split.
        { apply Forall_app. split.
          - eapply Forall_impl; [exact Hfresh|]. intros e. cbv beta. lia.
          - constructor; [simpl; lia|done]. }
        apply Forall_app. split; [done|].
        constructor; [|done]. unfold copied_entry. simpl. rewrite Ho.
        by exists items'.
      * simpl. eauto.
    + (* an instance *)
      assert (copying h0 ((l, length h) :: m) (h ++ [OInst cls []])) as Hinv1
        by (by apply copying_alloc).
      destruct (copy_dict_ok h0 (deepcopy_rec fuel) fuel IH attrs
                  ((l, length h) :: m) (h ++ [OInst cls []]))
        as (m' & h' & state & Hrun & Hinv' & [Hlen' Hsame'] & Hkeys & Hstate
            & added & -> & Hfresh & Hentries); try done.
      { simpl. lia. }
      rewrite length_app in Hlen', Hsame', Hfresh. simpl in Hlen', Hsame', Hfresh.
      assert (h' !! length h = Some (OInst cls [])) as Hl'.
      { rewrite Hsame' by lia. rewrite lookup_app_r by done.
        by rewrite Nat.sub_diag. }
      exists (PyRef (length h)), (added ++ (l, length h) :: m),
        (<[length h := OInst cls state]> h').
      split.
      { rewrite bind_run, copy_alloc_run. cbv beta iota.
        rewrite bind_run, memo_set_run. cbv beta iota.
        rewrite bind_run, Hrun. rewrite bind_run.
        rewrite (dict_update_run _ _ cls [] _ _ Hl'). reflexivity. }
      assert (memo_get l (added ++ (l, length h) :: m) = Some (length h))
        as Hget.
      { apply memo_get_app_l; [apply (copying_nodup _ _ _ Hinv')|].
        simpl. by rewrite Nat.eqb_refl. }
      assert (copying h0 (added ++ (l, length h) :: m)
                (<[length h := OInst cls state]> h')) as Hinv''.
      { apply copying_insert; [done|done|]. simpl.
        by eapply renamed_all_isolated. }
      split; [done| | |].
      * split; [rewrite length_insert; lia|]. intros k Hk.
        rewrite list_lookup_insert_ne by lia. rewrite Hsame' by lia.
        by apply lookup_app_l.
      * exists (added ++ [(l, length h)]).
        split; [by rewrite <- app_assoc|].
        split.
        { apply Forall_app. split.
          - eapply Forall_impl; [exact Hfresh|]. intros e. cbv beta. lia.
          - constructor; [simpl; lia|done]. }
        apply Forall_app. split.
        { rewrite Forall_forall in Hentries, Hfresh.
          apply Forall_forall. intros e He.
          apply (copied_entry_stable h0 [] _ h'); [apply (copying_nodup _ _ _ Hinv')| |by auto].
          apply list_lookup_insert_ne. specialize (Hfresh e He). simpl in Hfresh. lia. }
        constructor; [|done]. unfold copied_entry. simpl. rewrite Ho.
        exists state. split; [|done].
        apply list_lookup_insert_eq. lia.
      * simpl. eauto.
Qed.

(** *** What the copy looks like *)

(** The copy has the contents of the original. *)
Lemma view_copied (h0 : heap) (m : memo) (h : heap) :
  Forall (copied_entry h0 m h) m →
  ∀ depth x v, renamed m x v → view depth h v = view depth h0 x.
Proof.
  intros Hentries. rewrite Forall_forall in Hentries.
  induction depth as [|depth IH]; intros x v Hv.
  - destruct x; simpl in Hv; try (by subst v).
    by destruct Hv as (k' & _ & ->).
  - destruct x as [| b | z | q | s | k]; simpl in Hv; try (by subst v).
    destruct Hv as (k' & Hk & ->).
    apply memo_get_elem, Hentries in Hk. unfold copied_entry in Hk.
    simpl in *.
    destruct (h0 !! k) as [[items | cls attrs]|]; [| |done].
    + destruct Hk as (items' & -> & Hitems). f_equal.
      induction Hitems as [|x v xs vs Hv _ IHitems]; [done|].
      rewrite !fmap_cons. f_equal; [by apply IH|done].
    + destruct Hk as (attrs' & -> & Hkeys & Hvalues). f_equal.
      revert attrs' Hkeys Hvalues.
      induction attrs as [|[key x] attrs IHattrs];
        intros [|[key' v] attrs'] Hkeys Hvalues; try done.
      rewrite !fmap_cons in *. injection Hkeys as -> Hkeys.
      apply Forall2_cons in Hvalues as [Hv Hvalues].
      f_equal; [|by apply IHattrs].
      unfold prod_map. simpl. f_equal. by apply IH.
Qed.

(** What is reached from an isolated value does not depend on the objects
    below [n]. *)
Lemma view_isolated (n : nat) (h h'' : heap) :
  (∀ l o, n ≤ l → h !! l = Some o →
          Forall (isolated n (length h)) (obj_values o)) →
  (∀ l, n ≤ l → l < length h → h'' !! l = h !! l) →
  ∀ depth v, isolated n (length h) v → view depth h'' v = view depth h v.
Proof.
  intros Hnew Hsame.
  induction depth as [|depth IH]; intros v Hv; [by destruct v|].
  destruct v as [| b | z | q | s | l]; try done.
  simpl in Hv. destruct Hv as [Hn Hl]. simpl. rewrite Hsame by done.
  destruct (h !! l) as [o|] eqn:Ho; [|done].
  specialize (Hnew l o Hn Ho).
  destruct o as [items | cls attrs]; simpl in Hnew; f_equal.
  - apply Forall_fmap_ext. eapply Forall_impl; [exact Hnew|].
    intros x Hx. by apply IH.
  - apply Forall_fmap_ext. rewrite Forall_fmap in Hnew.
    eapply Forall_impl; [exact Hnew|].
    intros [key x] Hx. unfold prod_map. simpl. f_equal. by apply IH.
Qed.

(** New objects do not change what a value of a closed heap looks like. *)
Lemma view_extends (h h' : heap) :
  closed h → extends h h' →
  ∀ depth v, refers_below (length h) v → view depth h' v = view depth h v.
Proof.
  intros Hclosed [_ Hsame].
  induction depth as [|depth IH]; intros v Hv; [by destruct v|].
  destruct v as [| b | z | q | s | l]; try done.
  simpl in Hv. simpl. rewrite Hsame by done.
  destruct (h !! l) as [o|] eqn:Ho; [|done].
  specialize (Hclosed l o Ho).
  destruct o as [items | cls attrs]; simpl in Hclosed; f_equal.
  - apply Forall_fmap_ext. eapply Forall_impl; [exact Hclosed|].
    intros x Hx. by apply IH.
  - apply Forall_fmap_ext. rewrite Forall_fmap in Hclosed.
    eapply Forall_impl; [exact Hclosed|].
    intros [key x] Hx. unfold prod_map. simpl. f_equal. by apply IH.
Qed.

Lemma copying_start (h0 : heap) : copying h0 [] h0.
Proof.
  split; [apply extends_refl|constructor|constructor|].
  intros l o Hl Ho. apply lookup_lt_Some in Ho. lia.
Qed.

(** [deepcopy] on a closed heap: it returns; what it returns is the value
    itself if that is atomic and a new object otherwise; no object that
    existed is changed; the copy has the contents of the original; and what
    is reached from the copy are new objects only. *)
Lemma deepcopy_ok (x : pyval) (w : World) :
  closed (objects w) → refers_below (length (objects w)) x →
  ∃ v w',
    deepcopy x w = (inr v, w')
    ∧ extends (objects w) (objects w')
    ∧ match x with
      | PyRef _ => ∃ l', v = PyRef l'
                         ∧ length (objects w) ≤ l' < length (objects w')
      | _ => v = x
      end
    ∧ (∀ depth, view depth (objects w') v = view depth (objects w) x)
    ∧ (∀ h'',
         (∀ l, length (objects w) ≤ l → l < length (objects w') →
               h'' !! l = objects w' !! l) →
         ∀ depth, view depth h'' v = view depth (objects w') v).
Proof.
  intros Hclosed Hx.
  destruct (deepcopy_rec_ok (objects w) Hclosed (S (length (objects w)))
              x [] (objects w)) as (v & m' & h' & Hrun & Hpost);
    [apply copying_start|done|lia|].
  destruct Hpost as [Hinv Hext (added & Hadded & _ & Hentries) Hv].
  rewrite app_nil_r in Hadded. subst added.
  pose proof (renamed_isolated _ _ _ _ _ Hinv Hv) as Hiso.
  exists v, (set_objects h' w).
  split; [unfold deepcopy; by rewrite Hrun|]. simpl.
  split; [done|]. split.
  { destruct x; simpl in Hv; try done.
    destruct Hv as (k' & Hk & ->). by exists k'. }
  split; [intros depth; by eapply view_copied|].
  intros h'' Hsame depth. apply (view_isolated (length (objects w))); try done.
  apply (copying_new _ _ _ Hinv).
Qed.

(** ** [_fit]: the shape built on and the callbacks trained with *)

Lemma calls_after_training (fw : Framework) (c : call) (given : pyval)
    (w : World) :
  calls (after_training fw c given w) = calls w ++ [c].
Proof. reflexivity. Qed.

Lemma imap_same {A} (f : nat → A → A) (l : list A) :
  (∀ i x, f i x = x) → imap f l = l.
Proof.
  revert f. induction l as [|x l IH]; intros f Hf; [done|].
  simpl. rewrite Hf. f_equal. apply IH. intros i. apply Hf.
Qed.

(** Training that is given no object changes none. *)
Lemma objects_after_training_atomic (fw : Framework) (c : call)
    (given : pyval) (w : World) :
  (∀ l, given ≠ PyRef l) →
  objects (after_training fw c given w) = objects w.
Proof.
  intros Hatomic. unfold after_training, trained_objects, reachable.
  cbn [objects set_objects log_call].
  assert (reach (length (objects w)) (objects w) [] given = []) as ->.
  { destruct given; try (by destruct (length _)). by destruct (Hatomic l). }
  apply imap_same. intros i x. by rewrite bool_decide_eq_false_2 by apply not_elem_of_nil.
Qed.

Lemma objects_before_copy (fw : Framework) (a : ResNetRegressor)
    (shape : list nat) (w : World) :
  objects (before_copy fw a shape w)
  = objects w ++ optimizer_objects a ++ metrics_objects a.
Proof. unfold before_copy. by destruct (truthy _ _). Qed.

Lemma calls_before_copy (fw : Framework) (a : ResNetRegressor)
    (shape : list nat) (w : World) :
  ∃ summary,
    calls (before_copy fw a shape w)
    = calls w ++ build_model_calls fw a shape [] (objects w) ++ summary
    ∧ filter is_build_network_call summary = []
    ∧ filter is_fit_call summary = [].
Proof.
  unfold before_copy. destruct (truthy _ _).
  - eexists [_]. simpl. by rewrite <- app_assoc.
  - exists []. simpl. by rewrite app_nil_r.
Qed.

Lemma filter_build_model_calls (fw : Framework) (a : ResNetRegressor)
    (shape : list nat) (kwargs : dict) (h : heap) :
  filter is_build_network_call (build_model_calls fw a shape kwargs h)
  = [CBuildNetwork (_network a) shape kwargs]
  ∧ filter is_fit_call (build_model_calls fw a shape kwargs h) = [].
Proof.
  unfold build_model_calls, optimizer_calls. by destruct (optimizer a).
Qed.

(** C1.  On an array of shape [(n, d, m)], with tensorflow installed, a
    seed that passes the check and a quiet framework, [_fit] swaps the last two axes, records
    [(m, d)] as [input_shape] and builds the model on that shape: the one
    call to the topology provider carries [(m, d)], the model stored is the
    one compiled from it, and the training call, if the run gets there, is
    given the transposed array. *)
Theorem fit_builds_on_transposed_shape (fw : Framework)
    (a : ResNetRegressor) (w : World) (X y : ndarray) (n d m : nat) :
  quiet fw →
  "tensorflow" ∈ installed w →
  nd_shape X = [n; d; m] →
  check_random_state (random_state a) w = (inr (), w) →
  ∃ Xt r a' w',
    transpose X [0; 2; 1] = inr Xt
    ∧ nd_shape Xt = [n; m; d]
    ∧ (∀ i j k, nd_get Xt [i; k; j] = nd_get X [i; j; k])
    ∧ _fit fw X y (a, w) = (r, (a', w'))
    ∧ input_shape a' = Some [m; d]
    ∧ model_ a' = Some (compiled_model fw a [m; d] [] (objects w))
    ∧ filter is_build_network_call (calls_since w w')
      = [CBuildNetwork (_network a) [m; d] []]
    ∧ ∀ model X' y' bs ep vb cbs,
        CFit model X' y' bs ep vb cbs ∈ calls_since w w' → X' = Xt.
Proof.
  intros Hq Htf Hshape Hseed.
  destruct (transpose_3d X n d m Hshape) as (Xt & HX & HXt & Hget).
  destruct (calls_before_copy fw a [m; d] w)
    as (summary & Hcalls & Hsummary & Hsummary').
  destruct (filter_build_model_calls fw a [m; d] [] (objects w))
    as [Hbuild Hbuild'].
  exists Xt. rewrite (_fit_quiet fw Hq a w X y Xt Htf HX Hseed).
  rewrite HXt. cbn [tail].
  destruct (deepcopy _ _) as [[e | copied] w3] eqn:Hcopy;
    apply deepcopy_world in Hcopy.
  - eexists _, _, _. split_and!; try done.
    + rewrite Hcopy. unfold calls_since. cbn [calls set_objects].
      rewrite Hcalls, drop_app_length, filter_app, Hbuild, Hsummary.
      reflexivity.
    + intros model X' y' bs ep vb cbs. rewrite Hcopy. unfold calls_since.
      cbn [calls set_objects]. rewrite Hcalls, drop_app_length.
      intros Hin.
      assert (Is_true (is_fit_call (CFit model X' y' bs ep vb cbs))) as Hfit
        by done.
      pose proof (proj2 (list_elem_of_filter is_fit_call _ _) (conj Hfit Hin))
        as Hin'. clear Hin. rename Hin' into Hin.
      rewrite filter_app, Hbuild', Hsummary' in Hin.
      by apply elem_of_nil in Hin.
  - eexists _, _, _. split_and!; try done.
    + unfold calls_since. rewrite calls_after_training, Hcopy.
      cbn [calls set_objects].
      rewrite Hcalls, <- !app_assoc, drop_app_length.
      rewrite !filter_app, Hbuild, Hsummary. reflexivity.
    + intros model X' y' bs ep vb cbs. unfold calls_since.
      rewrite calls_after_training, Hcopy. cbn [calls set_objects].
      rewrite Hcalls, <- !app_assoc, drop_app_length.
      intros Hin.
      assert (Is_true (is_fit_call (CFit model X' y' bs ep vb cbs))) as Hfit
        by done.
      pose proof (proj2 (list_elem_of_filter is_fit_call _ _) (conj Hfit Hin))
        as Hin'. clear Hin. rename Hin' into Hin.
      rewrite !filter_app, Hbuild', Hsummary' in Hin.
      unfold training_call in Hin. simpl in Hin.
      apply list_elem_of_singleton in Hin. by injection Hin.
Qed.

Lemma refers_below_mono n n' v : n ≤ n' → refers_below n v → refers_below n' v.
Proof. destruct v; simpl; try done. lia. Qed.

Lemma closed_app_atoms (h more : heap) :
  closed h →
  Forall (λ o, Forall (refers_below 0) (obj_values o)) more →
  closed (h ++ more).
Proof.
  intros Hclosed Hmore l o Hl. rewrite length_app.
  apply lookup_app_Some in Hl as [Hl | [_ Hl]].
  - eapply Forall_impl; [by eapply Hclosed|].
    intros v. apply refers_below_mono. lia.
  - rewrite Forall_forall in Hmore.
    eapply Forall_impl; [by eapply Hmore, list_elem_of_lookup_2|].
    intros v. apply refers_below_mono. lia.
Qed.

Lemma closed_before_copy (fw : Framework) (a : ResNetRegressor)
    (shape : list nat) (w : World) :
  closed (objects w) → closed (objects (before_copy fw a shape w)).
Proof.
  intros Hclosed. rewrite objects_before_copy.
  apply closed_app_atoms; [done|].
  unfold optimizer_objects, metrics_objects.
  destruct (optimizer a), (metrics a); simpl; repeat constructor.
Qed.


(** ** The records of the test parameters *)

(** C5, what holds of the factory.  It takes no adapter and, when the framework
    accepts the construction of the callback, returns two records if keras
    is not installed and three if it is.  Every record configures an epoch
    count between 2 and 6.  The first two records configure a batch size
    between 4 and 6 and no callbacks.  The third record -- there exactly
    when keras is installed -- configures no batch size, and as callbacks a
    new list of one new [LambdaCallback] constructed without hooks.  The
    installed packages and the global seed are as before, and so is every
    object that existed. *)
Theorem get_test_params_records (fw : Framework) (set : string) (w : World) :
  fw_raises fw w CLambdaCallback = None →
  ∃ params w',
    get_test_params fw set w = (inr params, w')
    ∧ length params = (if bool_decide ("keras" ∈ installed w) then 3 else 2)
    ∧ Forall epochs_in_range params
    ∧ Forall batch_size_in_range (take 2 params)
    ∧ Forall (λ p, dict_get "callbacks" p = None) (take 2 params)
    ∧ (∀ p, params !! 2 = Some p →
         dict_get "batch_size" p = None
         ∧ ∃ l cb,
             dict_get "callbacks" p = Some (PyRef l)
             ∧ length (objects w) ≤ cb
             ∧ objects w' !! l = Some (OList [PyRef cb])
             ∧ objects w' !! cb
               = Some (OInst "keras.callbacks.LambdaCallback" []))
    ∧ installed w' = installed w
    ∧ tf_global_seed w' = tf_global_seed w
    ∧ (∀ l o, objects w !! l = Some o → objects w' !! l = Some o).
Proof.
  intros Hquiet.
  assert (epochs_in_range [("n_epochs", PyInt 6); ("batch_size", PyInt 4);
                           ("use_bias", PyBool false)]) as He1
    by (exists 6%Z; split; [reflexivity|lia]).
  assert (epochs_in_range [("n_epochs", PyInt 4); ("batch_size", PyInt 6);
                           ("use_bias", PyBool true)]) as He2
    by (exists 4%Z; split; [reflexivity|lia]).
  assert (batch_size_in_range [("n_epochs", PyInt 6); ("batch_size", PyInt 4);
                               ("use_bias", PyBool false)]) as Hb1
    by (exists 4%Z; split; [reflexivity|lia]).
  assert (batch_size_in_range [("n_epochs", PyInt 4); ("batch_size", PyInt 6);
                               ("use_bias", PyBool true)]) as Hb2
    by (exists 6%Z; split; [reflexivity|lia]).
  destruct (decide ("keras" ∈ installed w)) as [Hkeras | Hkeras].
  - eexists _, _. split; [by apply get_test_params_with_keras|].
    rewrite bool_decide_eq_true_2 by done. cbn [take objects].
    split_and!; try done.
    + repeat constructor; try done. exists 2%Z. split; [reflexivity|lia].
    + by repeat constructor.
    + by repeat constructor.
    + intros p [= <-]. split; [done|].
      exists (S (length (objects w))), (length (objects w)).
      split; [done|]. split; [done|]. split.
      * rewrite lookup_app_r by lia.
        by replace (S (length (objects w)) - length (objects w)) with 1 by lia.
      * rewrite lookup_app_r by lia. by rewrite Nat.sub_diag.
    + intros l o Hl. by apply lookup_app_l_Some.
  - eexists _, _. split; [by apply get_test_params_without_keras|].
    rewrite bool_decide_eq_false_2 by done. cbn [take].
    split_and!; try done; by repeat constructor.
Qed.

(** C5, where it fails: the third record.  With keras installed it comes
    without a batch size, and the adapter constructed from it has the batch
    size 16 of the signature. *)
Lemma get_test_params_third_record :
  ∃ params w' p a w'',
    get_test_params example_framework "default" keras_world = (inr params, w')
    ∧ params !! 2 = Some p
    ∧ ¬ batch_size_in_range p
    ∧ construct p w' = (inr a, w'')
    ∧ batch_size a = PyInt 16.
Proof.
  eexists _, _, _, _, _. split; [reflexivity|]. split; [reflexivity|].
  split; [|split; reflexivity].
  intros (b & Hb & _). discriminate Hb.
Qed.

(** ** The theorems at concrete inputs *)

Lemma example_framework_quiet : quiet example_framework.
Proof. intros w c. reflexivity. Defined.

Lemma example_framework_topology : topology_provider example_framework.
Proof. intros net shape kwargs. split; [reflexivity|]. by exists 128. Defined.

Lemma tensorflow_world_ready : "tensorflow" ∈ installed tensorflow_world.
Proof. left. Defined.

Lemma callback_world_ready : "tensorflow" ∈ installed callback_world.
Proof. left. Defined.

Lemma callback_world_closed : closed (objects callback_world).
Proof.
  intros [|[|l]] o; simpl; intros [= <-]; simpl; repeat constructor.
Defined.

Lemma transpose_involution_witness :
  ∃ Xt, transpose example_X [0; 2; 1] = inr Xt
        ∧ nd_shape Xt = [2; 3; 1]
        ∧ nd_get Xt [1; 2; 0] = nd_get example_X [1; 0; 2]
        ∧ transpose Xt [0; 2; 1] = inr example_X.
Proof.
  destruct (transpose_involution example_X 2 1 3)
    as (Xt & Xtt & HX & Hshape & Hget & HXt & _ & _ & ->); [reflexivity|].
  exists Xt. split_and!; [exact HX|exact Hshape|apply Hget|exact HXt].
Defined.

Lemma fit_rejects_invalid_seed_witness :
  ∃ msg,
    _fit example_framework example_X example_y
         (misconfigured_adapter, tensorflow_world)
    = (inl (ValueError msg), (misconfigured_adapter, tensorflow_world)).
Proof.
  apply (fit_rejects_invalid_seed example_framework misconfigured_adapter
           tensorflow_world example_X example_y).
  - discriminate.
  - intros z. discriminate.
  - intros b. discriminate.
  - intros (l & cls & attrs & Hl & _). discriminate Hl.
Defined.

Lemma build_model_seeds_first_witness :
  let w' := (build_model example_framework [3; 1] []
               (callback_adapter, callback_world)).2.2 in
  (∃ rest, calls w' = CSetSeed (PyInt 7) :: rest)
  ∧ tf_global_seed w' = PyInt 7.
Proof.
  exact (build_model_seeds_first example_framework callback_adapter
           callback_world [3; 1] [] callback_world_ready).
Defined.

Lemma build_model_resolves_optimizer_witness :
  ∃ model a' w',
    build_model example_framework [24; 1] [] (example_adapter, tensorflow_world)
    = (inr model, (a', w'))
    ∧ optimizer_ a' = Some (PyRef 0)
    ∧ c_optimizer <$> compiled model = Some (PyRef 0)
    ∧ objects w' !! 0 = Some default_optimizer.
Proof.
  destruct (build_model_resolves_optimizer example_framework example_adapter
              tensorflow_world [24; 1] []
              example_framework_quiet tensorflow_world_ready)
    as (model & a' & w' & chosen & Hrun & Hopt & Hcompiled & _ & Hcase & _).
  simpl in Hcase. destruct Hcase as (-> & Hobject & _).
  exists model, a', w'. split_and!; [exact Hrun|exact Hopt|exact Hcompiled|].
  exact Hobject.
Defined.

Lemma build_model_resolves_metrics_witness :
  ∃ model a' w' l,
    build_model example_framework [24; 1] [] (example_adapter, tensorflow_world)
    = (inr model, (a', w'))
    ∧ c_metrics <$> compiled model = Some (PyRef l)
    ∧ objects w' !! l = Some (OList [PyStr "mean_squared_error"]).
Proof.
  destruct (build_model_resolves_metrics example_framework example_adapter
              tensorflow_world [24; 1] []
              example_framework_quiet tensorflow_world_ready)
    as (model & a' & w' & chosen & Hrun & Hcompiled & _ & Hcase & _).
  simpl in Hcase. destruct Hcase as (l & -> & _ & Hobject).
  exists model, a', w', l. split_and!; [exact Hrun|exact Hcompiled|].
  exact Hobject.
Defined.

Lemma build_model_dense_head_witness :
  ∃ model a' w',
    build_model example_framework [24; 1] [] (example_adapter, tensorflow_world)
    = (inr model, (a', w'))
    ∧ tensor_shape (inputs model) = [24; 1]
    ∧ tensor_shape (outputs model) = [1].
Proof.
  destruct (build_model_dense_head example_framework example_adapter
              tensorflow_world 24 1 []
              example_framework_quiet tensorflow_world_ready
              example_framework_topology)
    as (model & a' & w' & Hrun & _ & _ & _ & Hin & Hout).
  exists model, a', w'. split_and!; [exact Hrun|exact Hin|exact Hout].
Defined.

Lemma fit_builds_on_transposed_shape_witness :
  ∃ r a' w',
    _fit example_framework example_X example_y
         (example_adapter, tensorflow_world) = (r, (a', w'))
    ∧ input_shape a' = Some [3; 1]
    ∧ filter is_build_network_call (calls_since tensorflow_world w')
      = [CBuildNetwork (_network example_adapter) [3; 1] []].
Proof.
  destruct (fit_builds_on_transposed_shape example_framework example_adapter
              tensorflow_world example_X example_y 2 1 3)
    as (Xt & r & a' & w' & _ & _ & _ & Hrun & Hshape & _ & Hcalls & _);
    [exact example_framework_quiet|exact tensorflow_world_ready
    |reflexivity|reflexivity|].
  exists r, a', w'. split_and!; [exact Hrun|exact Hshape|exact Hcalls].
Defined.


Lemma get_test_params_records_witness :
  ∃ params w',
    get_test_params example_framework "default" keras_world = (inr params, w')
    ∧ length params = 3
    ∧ Forall epochs_in_range params.
Proof.
  destruct (get_test_params_records example_framework "default" keras_world)
    as (params & w' & Hrun & Hlength & Hepochs & _); [reflexivity|].
  exists params, w'. split_and!; [exact Hrun|exact Hlength|exact Hepochs].
Defined.

(** ** Scenarios *)

(** The scenario [n_epochs=6, batch_size=4, use_bias=False] on ten
    instances of one dimension and length 24: the model takes [(24, 1)] and
    gives [(1,)] per instance, and training is called with 6 epochs and
    batches of 4. *)
Example scenario_fit :
  ∃ a w model X,
    _fit example_framework scenario_X scenario_y
         (example_adapter, tensorflow_world) = (inr a, (a, w))
    ∧ input_shape a = Some [24; 1]
    ∧ model_ a = Some model
    ∧ tensor_shape (inputs model) = [24; 1]
    ∧ tensor_shape (outputs model) = [1]
    ∧ last (calls w)
      = Some (CFit model X scenario_y (PyInt 4) (PyInt 6) (PyBool false)
                   PyNone)
    ∧ nd_shape X = [10; 24; 1].
Proof. eexists _, _, _, _. vm_compute. split_and!; reflexivity. Qed.

(** Without tensorflow, construction fails and so does [build_model], at its
    import and before any seeding. *)
Example construct_without_tensorflow :
  construct [("n_epochs", PyInt 6)] bare_world
  = (inl (ModuleNotFoundError "tensorflow"), bare_world).
Proof. reflexivity. Qed.

Example build_model_without_tensorflow :
  build_model example_framework [24; 1] [] (callback_adapter, bare_world)
  = (inl (ModuleNotFoundError "tensorflow"), (callback_adapter, bare_world)).
Proof. reflexivity. Qed.

(** An error of the framework comes out of [build_model] as it is; the seed
    has been set and the optimizer resolved by then. *)
Example build_model_propagates :
  ∃ a w,
    build_model failing_framework [24; 1] [] (callback_adapter, callback_world)
    = (inl (FrameworkError "Dense"), (a, w))
    ∧ tf_global_seed w = PyInt 7
    ∧ optimizer_ a = Some (PyRef 2)
    ∧ model_ a = None.
Proof. eexists _, _. vm_compute. split_and!; reflexivity. Qed.

(** An array that is not three-dimensional is rejected by the transpose. *)
Example fit_two_dimensional :
  _fit example_framework (np_array [2; 3] (replicate 6 (0 # 1)%Q)) example_y
       (example_adapter, tensorflow_world)
  = (inl (ValueError "axes don't match array"),
     (example_adapter, tensorflow_world)).
Proof. reflexivity. Qed.

(** The module [numpy.random] and an instance of a class that inherits from
    [RandomState] pass the check of the seed, and [_fit] goes on to build
    and train; an instance of another class does not. *)
Example fit_accepts_numpy_random :
  ∃ a w,
    _fit example_framework example_X example_y
         (seeded_adapter (PyRef 0), numpy_world) = (inr a, (a, w))
    ∧ input_shape a = Some [3; 1]
    ∧ tf_global_seed w = PyRef 0.
Proof. eexists _, _. vm_compute. split_and!; reflexivity. Qed.

Example fit_accepts_random_state_subclass :
  ∃ a w,
    _fit example_framework example_X example_y
         (seeded_adapter (PyRef 1), numpy_world) = (inr a, (a, w))
    ∧ input_shape a = Some [3; 1]
    ∧ tf_global_seed w = PyRef 1.
Proof. eexists _, _. vm_compute. split_and!; reflexivity. Qed.

Example fit_rejects_other_instance :
  _fit example_framework example_X example_y
       (seeded_adapter (PyRef 2), numpy_world)
  = (inl (ValueError "cannot be used to seed a RandomState"),
     (seeded_adapter (PyRef 2), numpy_world)).
Proof. reflexivity. Qed.

(** Training writes into the callbacks it is given, which are the copies:
    after a fit in the example framework the copied callback carries the
    model, and the caller's list and callback are as they were. *)
Example fit_writes_into_the_copy :
  ∃ a w copied,
    _fit example_framework example_X example_y
         (callback_adapter, callback_world) = (inr a, (a, w))
    ∧ callbacks_ a = Some copied
    ∧ view 2 (objects w) copied
      = TList [TInst "keras.callbacks.LambdaCallback"
                     [("model", TAtom (PyStr "functional"))]]
    ∧ view 2 (objects w) (callbacks a)
      = TList [TInst "keras.callbacks.LambdaCallback" []].
Proof. eexists _, _, _. vm_compute. split_and!; reflexivity. Qed.

(** What is reached from a list that holds itself and a callback that
    refers back to it: the two objects, each once. *)
Example reachable_cycle :
  reachable (objects cyclic_world) (PyRef 0) = [1; 0].
Proof. reflexivity. Qed.

(** The copy of a cyclic structure has the same shape: the new list holds
    itself and the new callback, which refers to the new list. *)
Example deepcopy_cycle :
  deepcopy (PyRef 0) cyclic_world
  = (inr (PyRef 2),
     set_objects [OList [PyRef 0; PyRef 1; PyInt 3];
                  OInst "Callback" [("owner", PyRef 0)];
                  OList [PyRef 2; PyRef 3; PyInt 3];
                  OInst "Callback" [("owner", PyRef 2)]] cyclic_world).
Proof. reflexivity. Qed.

(** The third record of the test parameters constructs an adapter. *)
Example construct_third_record :
  ∃ params w p a w',
    get_test_params example_framework "default" keras_world = (inr params, w)
    ∧ params !! 2 = Some p
    ∧ construct p w = (inr a, w')
    ∧ n_epochs a = PyInt 2
    ∧ callbacks a = PyRef 1
    ∧ objects w' !! 1 = Some (OList [PyRef 0]).
Proof. eexists _, _, _, _, _. vm_compute. split_and!; reflexivity. Qed.

(** * Further properties of the methods *)

(** ** Arrays of other dimensions, seeds out of range *)

(** X1.  [_fit] on an array that is not three-dimensional raises the
    [ValueError] of the transpose, whatever the seed and the framework, and
    leaves the adapter and the process as they were. *)
Theorem fit_rejects_other_dimensions (fw : Framework) (a : ResNetRegressor)
    (w : World) (X y : ndarray) :
  nd_ndim X ≠ 3 →
  _fit fw X y (a, w)
  = (inl (ValueError "axes don't match array"), (a, w)).
Proof.
  intros HX. unfold _fit. rewrite bind_run. unfold py at 1.
  by rewrite transpose_021_not_3d.
Qed.

Lemma fit_rejects_other_dimensions_witness :
  _fit example_framework example_y example_y
       (example_adapter, tensorflow_world)
  = (inl (ValueError "axes don't match array"),
     (example_adapter, tensorflow_world)).
Proof.
  apply (fit_rejects_other_dimensions example_framework example_adapter
           tensorflow_world example_y example_y).
  vm_compute. intros Hdim. discriminate Hdim.
Defined.

(** X2.  An integer seed below 0 or from 2**32 on is accepted by the
    constructor, which checks no value; [_fit] on the adapter constructed
    then raises a [ValueError] on any data and in any framework, and leaves
    the adapter and the process as they were. *)
Theorem fit_rejects_out_of_range_seed
    (n_epochs callbacks verbose loss metrics batch_size activation use_bias
     optimizer : pyval) (z : Z) (w : World) :
  "tensorflow" ∈ installed w →
  (z < 0 ∨ 2 ^ 32 ≤ z)%Z →
  ∃ a,
    __init__ n_epochs callbacks verbose loss metrics batch_size (PyInt z)
             activation use_bias optimizer w = (inr a, w)
    ∧ ∀ fw X y, ∃ msg, _fit fw X y (a, w) = (inl (ValueError msg), (a, w)).
Proof.
  intros Htf Hz. eexists. split.
  { rewrite init_stores_hyperparameters_run. by rewrite bool_decide_eq_true_2. }
  intros fw X y. unfold _fit. rewrite bind_run. unfold py at 1.
  destruct (transpose X [0; 2; 1]) as [e | Xt] eqn:HX.
  - unfold transpose in HX. destruct (valid_axes _ _); [done|].
    injection HX as <-. eauto.
  - rewrite bind_run, self_get_run. cbv beta iota.
    rewrite bind_run, in_world_run. cbn [random_state check_random_state].
    assert (((0 <=? z) && (z <? 2 ^ 32))%Z = false) as ->; [|eauto].
    apply andb_false_iff. destruct Hz; [left|right]; lia.
Qed.

Lemma fit_rejects_out_of_range_seed_witness :
  ∃ a,
    __init__ (PyInt 6) PyNone (PyBool false) (PyStr "mean_squared_error")
             PyNone (PyInt 4) (PyInt (-1)) (PyStr "linear") (PyBool true)
             PyNone tensorflow_world = (inr a, tensorflow_world)
    ∧ ∀ fw X y, ∃ msg,
        _fit fw X y (a, tensorflow_world)
        = (inl (ValueError msg), (a, tensorflow_world)).
Proof.
  apply (fit_rejects_out_of_range_seed (PyInt 6) PyNone (PyBool false)
           (PyStr "mean_squared_error") PyNone (PyInt 4) (PyStr "linear")
           (PyBool true) PyNone (-1) tensorflow_world).
  - exact tensorflow_world_ready.
  - left. lia.
Defined.

(** ** What the methods leave of the adapter *)

Section Along.

Variable R : ResNetRegressor → ResNetRegressor → Prop.
Hypothesis R_refl : ∀ a, R a a.
Hypothesis R_trans : ∀ a1 a2 a3, R a1 a2 → R a2 a3 → R a1 a3.

Lemma along_ret {A} (x : A) : adapter_along R (mret x).
Proof. intros a w r a' w' [= <- <- <-]. apply R_refl. Qed.

Lemma along_bind {A B} (m : M State A) (f : A → M State B) :
  adapter_along R m → (∀ x, adapter_along R (f x)) →
  adapter_along R (m ≫= f).
Proof.
  intros Hm Hf a w r a' w'. rewrite bind_run.
  destruct (m (a, w)) as [[e | x] [a1 w1]] eqn:Hrun.
  - intros [= <- <- <-]. eauto.
  - intros Hrest. eapply R_trans; [by eapply Hm|by eapply Hf].
Qed.

Lemma along_gets {A} (f : State → A) : adapter_along R (gets f).
Proof. intros a w r a' w' [= <- <- <-]. apply R_refl. Qed.

Lemma along_py {A} (r : exn + A) : adapter_along R (py r).
Proof. intros a w r' a' w' [= <- <- <-]. apply R_refl. Qed.

Lemma along_self_attr {A} name (f : ResNetRegressor → option A) :
  adapter_along R (self_attr name f).
Proof.
  intros a w r a' w'. unfold self_attr. simpl.
  destruct (f a); intros [= <- <- <-]; apply R_refl.
Qed.

Lemma along_in_world {A} (m : M World A) : adapter_along R (in_world m).
Proof.
  intros a w r a' w'. rewrite in_world_run.
  destruct (m w) as [r1 w1]. intros [= <- <- <-]. apply R_refl.
Qed.

Lemma along_self_set u : (∀ a, R a (u a)) → adapter_along R (self_set u).
Proof. intros Hu a w r a' w' [= <- <- <-]. apply Hu. Qed.

End Along.

Ltac along_steps :=
  repeat first
    [ apply along_bind; [done|done| |intros ?]
    | apply along_ret; done
    | apply along_gets; done
    | apply along_py; done
    | apply along_self_attr; done
    | apply along_in_world; done
    | match goal with
      | |- adapter_along _ (match ?x with _ => _ end) => destruct x
      | |- adapter_along _ (let '(_, _) := ?x in _) => destruct x
      end ].

Lemma same_hyperparameters_refl a : same_hyperparameters a a.
Proof. by repeat split. Qed.

Lemma same_hyperparameters_trans a1 a2 a3 :
  same_hyperparameters a1 a2 → same_hyperparameters a2 a3 →
  same_hyperparameters a1 a3.
Proof. unfold same_hyperparameters. intros H1 H2. intuition congruence. Qed.

Lemma only_optimizer_set_refl a : only_optimizer_set a a.
Proof. by repeat split. Qed.

Lemma only_optimizer_set_trans a1 a2 a3 :
  only_optimizer_set a1 a2 → only_optimizer_set a2 a3 →
  only_optimizer_set a1 a3.
Proof.
  unfold only_optimizer_set, same_hyperparameters. intros H1 H2.
  intuition congruence.
Qed.

Lemma build_model_along (fw : Framework) (shape : list nat) (kwargs : dict) :
  adapter_along only_optimizer_set (build_model fw shape kwargs).
Proof.
  pose proof only_optimizer_set_refl. pose proof only_optimizer_set_trans.
  unfold build_model. along_steps.
  all: apply along_self_set; intros a; by repeat split.
Qed.

(** X3.  Whatever the framework does and however the build ends, [build_model]
    changes no attribute of the adapter but [optimizer_]: the
    hyper-parameters, the topology provider, [history], [input_shape],
    [model_] and [callbacks_] are as before.  In particular the model it
    returns is not stored by it. *)
Theorem build_model_sets_only_optimizer_ (fw : Framework)
    (a : ResNetRegressor) (w : World) (shape : list nat) (kwargs : dict) :
  only_optimizer_set a (build_model fw shape kwargs (a, w)).2.1.
Proof.
  destruct (build_model fw shape kwargs (a, w)) as [r [a' w']] eqn:Hrun.
  by eapply build_model_along.
Qed.

(** X4.  Whatever the data, the framework and the outcome, [_fit] changes no
    hyper-parameter of the adapter and keeps its topology provider: what
    was configured at construction is what the adapter holds after any
    number of calls. *)
Theorem fit_keeps_hyperparameters (fw : Framework) (a : ResNetRegressor)
    (w : World) (X y : ndarray) :
  same_hyperparameters a (_fit fw X y (a, w)).2.1.
Proof.
  destruct (_fit fw X y (a, w)) as [r [a' w']] eqn:Hrun. simpl.
  revert a w r a' w' Hrun.
  change (adapter_along same_hyperparameters (_fit fw X y)).
  pose proof same_hyperparameters_refl. pose proof same_hyperparameters_trans.
  unfold _fit. along_steps.
  all: apply along_self_set; intros a; by repeat split.
Qed.

(** ** Where the exceptions of [build_model] come from *)

Section Errors.

Variable fw : Framework.

Lemma raises_ret {A} (x : A) : raises_from fw (mret x).
Proof. intros w e w' Hrun. discriminate Hrun. Qed.

Lemma raises_bind {A B} (m : M World A) (f : A → M World B) :
  raises_from fw m → (∀ x, raises_from fw (f x)) → raises_from fw (m ≫= f).
Proof.
  intros Hm Hf w e w'. rewrite bind_run.
  destruct (m w) as [[e1 | x] w1] eqn:Hrun.
  - intros [= <- <-]. by eapply Hm.
  - apply Hf.
Qed.

Lemma raises_invoke c : raises_from fw (invoke fw c).
Proof.
  intros w e w'. unfold invoke.
  destruct (fw_raises fw w c) as [e1|] eqn:Hc; intros [= <- <-].
  exists w, c. split; [done|]. apply last_snoc.
Qed.

Lemma raises_new_object o : raises_from fw (new_object o).
Proof. intros w e w' Hrun. discriminate Hrun. Qed.

Lemma raises_modify f : raises_from fw (modify f).
Proof. intros w e w' Hrun. discriminate Hrun. Qed.

Lemma errs_ret P {A} (x : A) : errs_from fw P P (mret x).
Proof. by intros a w r a' w' HP [= <- <- <-]. Qed.

Lemma errs_ret_any P {A} (x : A) : errs_from fw P (λ _, True) (mret x).
Proof. by intros a w r a' w' HP [= <- <- <-]. Qed.

Lemma errs_bind P Q R {A B} (m : M State A) (f : A → M State B) :
  errs_from fw P Q m → (∀ x, errs_from fw Q R (f x)) →
  errs_from fw P R (m ≫= f).
Proof.
  intros Hm Hf a w r a' w' HP. rewrite bind_run.
  destruct (m (a, w)) as [[e | x] [a1 w1]] eqn:Hrun.
  - intros [= <- <- <-]. apply (Hm _ _ _ _ _ HP Hrun).
  - apply Hf. apply (Hm _ _ _ _ _ HP Hrun).
Qed.

Lemma errs_self_get P {A} (f : ResNetRegressor → A) :
  errs_from fw P P (self_get f).
Proof. by intros a w r a' w' HP [= <- <- <-]. Qed.

Lemma errs_self_set P u :
  errs_from fw P (λ a', ∃ a, P a ∧ a' = u a) (self_set u).
Proof. intros a w r a' w' HP [= <- <- <-]. eauto. Qed.

Lemma errs_self_attr P {A} name (f : ResNetRegressor → option A) :
  (∀ a, P a → is_Some (f a)) → errs_from fw P P (self_attr name f).
Proof.
  intros Hf a w r a' w' HP. unfold self_attr. simpl.
  destruct (Hf a HP) as [v ->]. by intros [= <- <- <-].
Qed.

Lemma errs_in_world P {A} (m : M World A) :
  raises_from fw m → errs_from fw P P (in_world m).
Proof.
  intros Hm a w r a' w' HP. rewrite in_world_run.
  destruct (m w) as [[e | x] w1] eqn:Hrun; intros [= <- <- <-]; [|done].
  by eapply Hm.
Qed.

(** [v if configured is None else configured] *)
Lemma errs_default P (configured : pyval) (m : M State pyval) :
  errs_from fw P P m →
  errs_from fw P P
    (match configured with PyNone => m | _ => mret configured end).
Proof. intros Hm. destruct configured; first [done | apply errs_ret]. Qed.

Lemma errs_pair P Q {A B C} (x : A * B) (f : A → B → M State C) :
  (∀ i o, errs_from fw P Q (f i o)) →
  errs_from fw P Q (let '(i, o) := x in f i o).
Proof. intros Hf. by destruct x. Qed.

Ltac raises_steps :=
  repeat first
    [ apply raises_bind; [|intros ?]
    | apply raises_ret | apply raises_invoke | apply raises_new_object
    | apply raises_modify ].

Ltac errs_steps :=
  repeat first
    [ match goal with
      | |- errs_from _ _ _ (_ ≫= _) => eapply errs_bind; [|intros ?]
      end
    | apply errs_ret | apply errs_ret_any
    | apply errs_self_get | apply errs_self_set
    | apply errs_self_attr; intros ? (? & _ & ->); by eexists
    | apply errs_in_world;
      cbv beta delta [tf_random_set_seed keras_optimizers_Adam build_network
                      keras_layers_Dense keras_models_Model Model_compile];
      raises_steps
    | apply errs_default
    | apply errs_pair; intros ? ? ].


End Errors.


(** ** A training run that fails *)

Section UntilTraining.

Variable fw : Framework.
Hypothesis Hquiet : quiet_until_training fw.

Lemma invoke_accepted c w :
  is_fit_call c = false → invoke fw c w = (inr (), log_call c w).
Proof. intros Hc. unfold invoke. by rewrite Hquiet. Qed.

Lemma set_seed_accepted seed a w :
  in_world (tf_random_set_seed fw seed) (a, w)
  = (inr (), (a, set_global_seed seed (log_call (CSetSeed seed) w))).
Proof.
  rewrite in_world_run. unfold tf_random_set_seed.
  by rewrite bind_run, invoke_accepted.
Qed.

Lemma Adam_accepted lr a w :
  in_world (keras_optimizers_Adam fw lr) (a, w)
  = (inr (PyRef (length (objects w))),
     (a, set_objects
           (objects w ++ [OInst "keras.optimizers.Adam"
                                [("learning_rate", PyFloat lr)]])
           (log_call (CAdam lr) w))).
Proof.
  rewrite in_world_run. unfold keras_optimizers_Adam.
  by rewrite bind_run, invoke_accepted.
Qed.

Lemma build_network_accepted net shape kw a w :
  in_world (build_network fw net shape kw) (a, w)
  = (inr (fw_build_network fw net shape kw),
     (a, log_call (CBuildNetwork net shape kw) w)).
Proof.
  rewrite in_world_run. unfold build_network.
  by rewrite bind_run, invoke_accepted.
Qed.

Lemma Dense_accepted u act ub x a w :
  in_world (keras_layers_Dense fw u act ub x) (a, w)
  = (inr (KDense u act ub x), (a, log_call (CDense u act ub x) w)).
Proof.
  rewrite in_world_run. unfold keras_layers_Dense.
  by rewrite bind_run, invoke_accepted.
Qed.

Lemma Model_accepted i o a w :
  in_world (keras_models_Model fw i o) (a, w)
  = (inr {| inputs := i; outputs := o; compiled := None |},
     (a, log_call (CModel i o) w)).
Proof.
  rewrite in_world_run. unfold keras_models_Model.
  by rewrite bind_run, invoke_accepted.
Qed.

Lemma compile_accepted m l o ms a w :
  in_world (Model_compile fw m l o ms) (a, w)
  = (inr {| inputs := inputs m; outputs := outputs m;
            compiled := Some {| c_loss := l; c_optimizer := o;
                                c_metrics := ms |} |},
     (a, log_call (CCompile m l o ms) w)).
Proof.
  rewrite in_world_run. unfold Model_compile.
  by rewrite bind_run, invoke_accepted.
Qed.

Lemma summary_accepted m a w :
  in_world (Model_summary fw m) (a, w) = (inr (), (a, log_call (CSummary m) w)).
Proof.
  rewrite in_world_run. unfold Model_summary. by rewrite invoke_accepted.
Qed.

Lemma fit_outcome m X y bs ep vb cbs a w :
  in_world (Model_fit fw m X y bs ep vb cbs) (a, w)
  = match fw_raises fw w (CFit m X y bs ep vb cbs) with
    | Some e => (inl e, (a, log_call (CFit m X y bs ep vb cbs) w))
    | None =>
        (inr (fw_history fw
                (after_training fw (CFit m X y bs ep vb cbs) cbs w)
                (CFit m X y bs ep vb cbs)),
         (a, after_training fw (CFit m X y bs ep vb cbs) cbs w))
    end.
Proof.
  rewrite in_world_run. unfold Model_fit. rewrite bind_run. unfold invoke.
  by destruct (fw_raises fw w _).
Qed.

Ltac run1 :=
  rewrite bind_run;
  first [ rewrite self_get_run | rewrite self_set_run
        | rewrite set_seed_accepted | rewrite Adam_accepted
        | rewrite new_object_run | rewrite build_network_accepted
        | rewrite Dense_accepted | rewrite Model_accepted
        | rewrite compile_accepted | rewrite summary_accepted
        | rewrite ret_run
        | erewrite self_attr_run by reflexivity ];
  cbv beta iota.

(** [build_model] makes no training call: it runs as in a quiet
    framework. *)
Lemma build_model_accepted (a : ResNetRegressor) (w : World)
    (shape : list nat) (kwargs : dict) :
  "tensorflow" ∈ installed w →
  build_model fw shape kwargs (a, w)
  = (inr (compiled_model fw a shape kwargs (objects w)),
     (set_optimizer_ (resolved_optimizer a (objects w)) a,
      after_build_model fw a shape kwargs w)).
Proof.
  unfold build_model, after_build_model, compiled_model, build_model_calls,
    assembled_model, resolved_optimizer, resolved_metrics, optimizer_objects,
    optimizer_calls, metrics_objects.
  intros Htf. do 2 (rewrite bind_run, import_run by done; cbv beta iota).
  do 3 run1.
  destruct (optimizer a) eqn:Ho; do 3 run1; cbn [metrics set_optimizer_];
    destruct (metrics a) eqn:Hm; do 3 run1;
    destruct (fw_build_network _ _ _ _) as [i o]; repeat run1;
    rewrite ret_run; cbn; unfold log_call, set_objects, set_global_seed;
    cbn; rewrite <- ?app_assoc; cbn; rewrite ?app_nil_r;
    reflexivity.
Qed.

(** [_fit] up to and with the training call, whose outcome decides. *)
Lemma _fit_until_training (a : ResNetRegressor) (w : World)
    (X y Xt : ndarray) :
  "tensorflow" ∈ installed w →
  transpose X [0; 2; 1] = inr Xt →
  check_random_state (random_state a) w = (inr (), w) →
  let shape := tail (nd_shape Xt) in
  let a2 := adapter_before_copy fw a shape w in
  _fit fw X y (a, w)
  = match deepcopy (callbacks a) (before_copy fw a shape w) with
    | (inl e, w3) => (inl e, (a2, w3))
    | (inr copied, w3) =>
        let c := training_call fw a shape w Xt y copied in
        match fw_raises fw w3 c with
        | Some e => (inl e, (set_callbacks_ copied a2, log_call c w3))
        | None =>
            let w' := after_training fw c copied w3 in
            let a' := set_history (fw_history fw w' c)
                                  (set_callbacks_ copied a2) in
            (inr a', (a', w'))
        end
    end.
Proof.
  intros Htf HX Hseed shape a2. unfold _fit.
  rewrite bind_run. unfold py at 1. rewrite HX. cbv beta iota.
  run1. rewrite bind_run, in_world_run, Hseed. cbv beta iota.
  do 2 run1. rewrite bind_run, build_model_accepted by done.
  cbv beta iota. fold shape.
  change (compiled_model fw (set_input_shape shape a) shape [] (objects w))
    with (compiled_model fw a shape [] (objects w)).
  change (after_build_model fw (set_input_shape shape a) shape [] w)
    with (after_build_model fw a shape [] w).
  change (resolved_optimizer (set_input_shape shape a) (objects w))
    with (resolved_optimizer a (objects w)).
  do 2 run1. rewrite bind_run, in_world_run.
  cbn [gets set_model_ set_optimizer_ set_input_shape verbose].
  cbv beta iota. rewrite bind_run.
  unfold before_copy, a2, adapter_before_copy, training_call.
  destruct (truthy _ _).
  - run1. rewrite summary_accepted. cbv beta iota.
    run1. rewrite bind_run, in_world_run.
    destruct (deepcopy _ _) as [[e | copied] w3]; [reflexivity|].
    cbv beta iota. do 6 run1. rewrite bind_run, fit_outcome.
    cbn [set_callbacks_ model_ batch_size n_epochs verbose].
    destruct (fw_raises fw w3 _); [reflexivity|].
    cbv beta iota. run1. reflexivity.
  - rewrite ret_run. cbv beta iota.
    run1. rewrite bind_run, in_world_run.
    destruct (deepcopy _ _) as [[e | copied] w3]; [reflexivity|].
    cbv beta iota. do 6 run1. rewrite bind_run, fit_outcome.
    cbn [set_callbacks_ model_ batch_size n_epochs verbose].
    destruct (fw_raises fw w3 _); [reflexivity|].
    cbv beta iota. run1. reflexivity.
Qed.

End UntilTraining.

Lemma copying_closed (h0 : heap) (m : memo) (h : heap) :
  closed h0 → copying h0 m h → closed h.
Proof.
  intros Hclosed [[Hlen Hsame] _ _ Hnew] l o Hl.
  destruct (decide (l < length h0)) as [Hold | Hge].
  - rewrite Hsame in Hl by done.
    eapply Forall_impl; [by eapply Hclosed|].
    intros v. by apply refers_below_mono.
  - eapply Forall_impl; [eapply (Hnew l o); [lia|done]|].
    intros [| | | | |k]; simpl; try done. lia.
Qed.

Lemma deepcopy_keeps_closed (x : pyval) (w w' : World) (r : exn + pyval) :
  closed (objects w) → refers_below (length (objects w)) x →
  deepcopy x w = (r, w') →
  closed (objects w')
  ∧ match r with
    | inr v => refers_below (length (objects w')) v
    | inl _ => True
    end.
Proof.
  intros Hclosed Hx.
  destruct (deepcopy_rec_ok (objects w) Hclosed (S (length (objects w)))
              x [] (objects w)) as (v & m' & h' & Hrun & Hpost);
    [apply copying_start|done|lia|].
  destruct Hpost as [Hinv _ _ Hv].
  unfold deepcopy. rewrite Hrun. intros [= <- <-]. simpl.
  split; [by eapply copying_closed|].
  pose proof (renamed_isolated _ _ _ _ _ Hinv Hv) as Hiso.
  destruct v; simpl in *; try done. lia.
Qed.

Lemma check_random_state_extends (seed : pyval) (w w' : World) :
  check_random_state seed w = (inr (), w) →
  extends (objects w) (objects w') →
  classes w' = classes w →
  check_random_state seed w' = (inr (), w').
Proof.
  intros Hseed Hext Hclasses. unfold check_random_state in *.
  destruct seed as [| b | z | q | s | l]; try done.
  - by destruct ((0 <=? z) && (z <? 2 ^ 32))%Z.
  - destruct (objects w !! l) as [o|] eqn:Hl; [|done].
    rewrite (extends_lookup _ _ _ _ Hext Hl).
    destruct o as [items | cls attrs]; [done|].
    destruct (is_module "numpy.random" (OInst cls attrs)); [done|].
    unfold isinstance in *. rewrite Hclasses.
    by destruct (_ || _).
Qed.

Lemma truthy_extends (h h' : heap) (v : pyval) :
  extends h h' → refers_below (length h) v → truthy h' v = truthy h v.
Proof.
  intros [_ Hsame] Hv. destruct v; try done. simpl in *. by rewrite Hsame.
Qed.

Lemma installed_before_copy (fw : Framework) (a : ResNetRegressor)
    (shape : list nat) (w : World) :
  installed (before_copy fw a shape w) = installed w.
Proof. unfold before_copy. by destruct (truthy _ _). Qed.

(** On a three-dimensional array, with tensorflow installed, a seed that
    passes the check and nothing dangling, [_fit] in a framework that is
    quiet until training gets to the training call. *)
Lemma fit_reaches_training (fw : Framework) (a : ResNetRegressor)
    (w : World) (X y : ndarray) (n d m : nat) :
  quiet_until_training fw →
  "tensorflow" ∈ installed w →
  nd_shape X = [n; d; m] →
  check_random_state (random_state a) w = (inr (), w) →
  closed (objects w) →
  refers_below (length (objects w)) (callbacks a) →
  ∃ Xt copied w3,
    transpose X [0; 2; 1] = inr Xt
    ∧ w3 = set_objects (objects w3) (before_copy fw a [m; d] w)
    ∧ closed (objects w3)
    ∧ extends (objects w) (objects w3)
    ∧ refers_below (length (objects w3)) copied
    ∧ _fit fw X y (a, w)
      = let a2 := adapter_before_copy fw a [m; d] w in
        let c := training_call fw a [m; d] w Xt y copied in
        match fw_raises fw w3 c with
        | Some e => (inl e, (set_callbacks_ copied a2, log_call c w3))
        | None =>
            let w' := after_training fw c copied w3 in
            let a' := set_history (fw_history fw w' c)
                                  (set_callbacks_ copied a2) in
            (inr a', (a', w'))
        end.
Proof.
  intros Hq Htf Hshape Hseed Hclosed Hcallbacks.
  destruct (transpose_3d X n d m Hshape) as (Xt & HX & HXt & _).
  pose proof (objects_before_copy fw a [m; d] w) as Hobjects.
  assert (extends (objects w) (objects (before_copy fw a [m; d] w)))
    as Hext0 by (rewrite Hobjects; apply extends_app).
  assert (refers_below (length (objects (before_copy fw a [m; d] w)))
            (callbacks a)) as Hcallbacks'
    by (eapply refers_below_mono; [|done]; by destruct Hext0).
  destruct (deepcopy_ok (callbacks a) (before_copy fw a [m; d] w))
    as (copied & w3 & Hcopy & Hext & _); [by apply closed_before_copy|done|].
  destruct (deepcopy_keeps_closed _ _ _ _
              (closed_before_copy fw a [m; d] w Hclosed) Hcallbacks' Hcopy)
    as [Hclosed3 Hcopied].
  exists Xt, copied, w3.
  split; [done|]. split; [by eapply deepcopy_world|]. split; [done|].
  split; [by eapply extends_trans|]. split; [done|].
  rewrite (_fit_until_training fw Hq a w X y Xt Htf HX Hseed).
  rewrite HXt. cbn [tail]. by rewrite Hcopy.
Qed.

Lemma quiet_quiet_until_training (fw : Framework) :
  quiet fw → quiet_until_training fw.
Proof. intros Hq w c _. apply Hq. Qed.



(** ** The calls of a fit, in order, and the history *)



(** ** Building twice, fitting again *)

(** X8.  Two builds on one adapter, in a quiet framework.  With no optimizer
    configured each build constructs an Adam optimizer of its own: the two
    models are compiled with two different objects.  With an optimizer
    configured both models are compiled with that one object.  Either way
    [optimizer_] holds the optimizer of the later build. *)
Theorem build_model_twice (fw : Framework) (a : ResNetRegressor) (w : World)
    (shape1 shape2 : list nat) (kwargs1 kwargs2 : dict) :
  quiet fw →
  "tensorflow" ∈ installed w →
  ∃ model1 a1 w1 model2 a2 w2 chosen1 chosen2,
    build_model fw shape1 kwargs1 (a, w) = (inr model1, (a1, w1))
    ∧ build_model fw shape2 kwargs2 (a1, w1) = (inr model2, (a2, w2))
    ∧ c_optimizer <$> compiled model1 = Some chosen1
    ∧ c_optimizer <$> compiled model2 = Some chosen2
    ∧ optimizer_ a2 = Some chosen2
    ∧ match optimizer a with
      | PyNone =>
          ∃ l1 l2, chosen1 = PyRef l1 ∧ chosen2 = PyRef l2 ∧ l1 ≠ l2
                   ∧ objects w2 !! l1 = Some default_optimizer
                   ∧ objects w2 !! l2 = Some default_optimizer
      | supplied => chosen1 = supplied ∧ chosen2 = supplied
      end.
Proof.
  intros Hq Htf. eexists _, _, _, _, _, _, _, _.
  split; [by apply build_model_quiet|].
  split; [by apply build_model_quiet|].
  split; [reflexivity|]. split; [reflexivity|]. split; [reflexivity|].
  cbn [objects after_build_model].
  unfold resolved_optimizer, optimizer_objects. cbn [optimizer set_optimizer_].
  destruct (optimizer a); try done.
  eexists _, _. split; [reflexivity|]. split; [reflexivity|].
  rewrite !length_app. cbn [length]. split; [lia|]. split.
  - rewrite <- !app_assoc. rewrite lookup_app_r by lia.
    by rewrite Nat.sub_diag.
  - rewrite lookup_app_r by (rewrite !length_app; cbn [length]; lia).
    rewrite !length_app. cbn [length].
    match goal with |- _ !! ?i = _ => replace i with 0 by lia end.
    reflexivity.
Qed.

Lemma build_model_twice_witness :
  ∃ model1 a1 w1 model2 a2 w2 l1 l2,
    build_model example_framework [24; 1] []
                (example_adapter, tensorflow_world) = (inr model1, (a1, w1))
    ∧ build_model example_framework [3; 1] [] (a1, w1)
      = (inr model2, (a2, w2))
    ∧ c_optimizer <$> compiled model1 = Some (PyRef l1)
    ∧ c_optimizer <$> compiled model2 = Some (PyRef l2)
    ∧ l1 ≠ l2.
Proof.
  destruct (build_model_twice example_framework example_adapter
              tensorflow_world [24; 1] [3; 1] [] []
              example_framework_quiet tensorflow_world_ready)
    as (model1 & a1 & w1 & model2 & a2 & w2 & chosen1 & chosen2
        & Hrun1 & Hrun2 & Hc1 & Hc2 & _ & Hcase).
  simpl in Hcase. destruct Hcase as (l1 & l2 & -> & -> & Hne & _).
  exists model1, a1, w1, model2, a2, w2, l1, l2.
  split_and!; [exact Hrun1|exact Hrun2|exact Hc1|exact Hc2|exact Hne].
Defined.



(** ** Construction from keywords, and the test parameters *)

Lemma construct_run (kwargs : dict) (w : World) :
  "tensorflow" ∈ installed w →
  forallb (λ k, bool_decide (k ∈ signature)) kwargs.*1 = true →
  construct kwargs w
  = (inr {| n_epochs := kwarg "n_epochs" (PyInt 1500) kwargs;
            callbacks := kwarg "callbacks" PyNone kwargs;
            verbose := kwarg "verbose" (PyBool false) kwargs;
            loss := kwarg "loss" (PyStr "mean_squared_error") kwargs;
            metrics := kwarg "metrics" PyNone kwargs;
            batch_size := kwarg "batch_size" (PyInt 16) kwargs;
            random_state := kwarg "random_state" PyNone kwargs;
            activation := kwarg "activation" (PyStr "linear") kwargs;
            use_bias := kwarg "use_bias" (PyBool true) kwargs;
            optimizer := kwarg "optimizer" PyNone kwargs;
            history := PyNone;
            _network :=
              {| net_random_state := kwarg "random_state" PyNone kwargs |};
            optimizer_ := None; input_shape := None; model_ := None;
            callbacks_ := None |}, w).
Proof.
  intros Htf Hkeys. unfold construct. rewrite Hkeys.
  rewrite init_stores_hyperparameters_run. by rewrite bool_decide_eq_true_2.
Qed.

(** A keyword the signature of [__init__] does not have is a [TypeError],
    and nothing is constructed, whether tensorflow is installed or not. *)
Lemma construct_unexpected_keyword (kwargs : dict) (w : World) (k : string) :
  k ∈ kwargs.*1 → k ∉ signature →
  ∃ msg, construct kwargs w = (inl (TypeError msg), w).
Proof.
  intros Hk Hsig. unfold construct.
  assert (forallb (λ k, bool_decide (k ∈ signature)) kwargs.*1 = false) as ->.
  { apply not_true_iff_false. intros Hall.
    rewrite forallb_forall in Hall. apply list_elem_of_In in Hk.
    apply Hall in Hk. by apply bool_decide_eq_true_1 in Hk. }
  by eexists.
Qed.

Ltac entries_of_record :=
  intros k v; simpl;
  repeat match goal with
         | |- context [String.eqb k ?name] =>
             let E := fresh "E" in
             destruct (String.eqb k name) eqn:E;
             [apply String.eqb_eq in E; subst k; intros [= <-]; reflexivity|]
         end;
  intros Hnone; discriminate Hnone.

(** X10.  Every record the factory returns constructs an adapter, as the
    docstring of [get_test_params] promises: each of its keywords is a
    keyword of [__init__], and the adapter holds under each keyword the
    value of the record. *)
Theorem test_params_construct (fw : Framework) (set : string) (w : World) :
  "tensorflow" ∈ installed w →
  fw_raises fw w CLambdaCallback = None →
  ∃ params w',
    get_test_params fw set w = (inr params, w')
    ∧ Forall (λ p, ∃ a, construct p w' = (inr a, w')
                        ∧ ∀ k v, dict_get k p = Some v →
                                 hyperparameter k a = Some v) params.
Proof.
  intros Htf Hquiet.
  destruct (decide ("keras" ∈ installed w)) as [Hkeras | Hkeras].
  - eexists _, _. split; [by apply get_test_params_with_keras|].
    repeat constructor.
    all: eexists; split; [by apply construct_run|entries_of_record].
  - eexists _, _. split; [by apply get_test_params_without_keras|].
    repeat constructor.
    all: eexists; split; [by apply construct_run|entries_of_record].
Qed.

Lemma test_params_construct_witness :
  ∃ params w',
    get_test_params example_framework "default" keras_world = (inr params, w')
    ∧ Forall (λ p, ∃ a, construct p w' = (inr a, w')) params.
Proof.
  destruct (test_params_construct example_framework "default" keras_world)
    as (params & w' & Hrun & Hall); [left|reflexivity|].
  exists params, w'. split; [exact Hrun|].
  eapply Forall_impl; [exact Hall|].
  intros p (a & Ha & _). by exists a.
Defined.

(** X11.  The callbacks of the third record are made anew at every call: the
    records of two calls share neither the list nor the callback in it,
    while their first two records are the same. *)
Theorem test_params_callbacks_are_fresh (fw : Framework)
    (set1 set2 : string) (w : World) :
  "keras" ∈ installed w →
  (∀ w, fw_raises fw w CLambdaCallback = None) →
  ∃ params1 w1 params2 w2 l1 cb1 l2 cb2,
    get_test_params fw set1 w = (inr params1, w1)
    ∧ get_test_params fw set2 w1 = (inr params2, w2)
    ∧ take 2 params1 = take 2 params2
    ∧ params1 !! 2 ≫= dict_get "callbacks" = Some (PyRef l1)
    ∧ params2 !! 2 ≫= dict_get "callbacks" = Some (PyRef l2)
    ∧ objects w2 !! l1 = Some (OList [PyRef cb1])
    ∧ objects w2 !! l2 = Some (OList [PyRef cb2])
    ∧ l1 ≠ l2 ∧ cb1 ≠ cb2.
Proof.
  intros Hkeras Hquiet. eexists _, _, _, _, _, _, _, _.
  split; [by apply get_test_params_with_keras|].
  split; [by apply get_test_params_with_keras|].
  split; [reflexivity|]. split; [reflexivity|]. split; [reflexivity|].
  cbn [objects]. rewrite !length_app. cbn [length].
  split.
  { rewrite lookup_app_l by (rewrite !length_app; cbn [length]; lia).
    rewrite lookup_app_r by lia.
    by replace (S (length (objects w)) - length (objects w)) with 1 by lia. }
  split.
  { rewrite lookup_app_r by (rewrite !length_app; cbn [length]; lia).
    rewrite !length_app. cbn [length].
    match goal with |- _ !! ?i = _ => replace i with 1 by lia end.
    reflexivity. }
  split; lia.
Qed.

Lemma test_params_callbacks_are_fresh_witness :
  ∃ params1 w1 params2 w2 l1 l2,
    get_test_params example_framework "default" keras_world
    = (inr params1, w1)
    ∧ get_test_params example_framework "default" w1 = (inr params2, w2)
    ∧ params1 !! 2 ≫= dict_get "callbacks" = Some (PyRef l1)
    ∧ params2 !! 2 ≫= dict_get "callbacks" = Some (PyRef l2)
    ∧ l1 ≠ l2.
Proof.
  destruct (test_params_callbacks_are_fresh example_framework
              "default" "default" keras_world)
    as (params1 & w1 & params2 & w2 & l1 & cb1 & l2 & cb2
        & Hrun1 & Hrun2 & _ & Hl1 & Hl2 & _ & _ & Hne & _).
  - right. left.
  - intros w. reflexivity.
  - exists params1, w1, params2, w2, l1, l2.
    split_and!; [exact Hrun1|exact Hrun2|exact Hl1|exact Hl2|exact Hne].
Defined.

(** ** The seed of the topology provider, the documented defaults *)

(** X12.  The adapter gives one seed to both random sources: constructed with
    [random_state], it seeds the framework's global generator with it in
    every build and asks the network of a topology provider that was
    instantiated with the same value; the shape and the keyword arguments
    of the build go to that provider as they are. *)
Theorem build_model_one_seed
    (n_epochs callbacks verbose loss metrics batch_size random_state
     activation use_bias optimizer : pyval)
    (fw : Framework) (w : World) (shape : list nat) (kwargs : dict) :
  quiet fw →
  "tensorflow" ∈ installed w →
  ∃ a model a' w',
    __init__ n_epochs callbacks verbose loss metrics batch_size random_state
             activation use_bias optimizer w = (inr a, w)
    ∧ build_model fw shape kwargs (a, w) = (inr model, (a', w'))
    ∧ filter (λ c, is_seed_call c || is_build_network_call c)
             (calls_since w w')
      = [CSetSeed random_state;
         CBuildNetwork {| net_random_state := random_state |} shape kwargs].
Proof.
  intros Hq Htf. eexists _, _, _, _.
  split.
  { rewrite init_stores_hyperparameters_run. by rewrite bool_decide_eq_true_2. }
  split; [by apply build_model_quiet|].
  rewrite calls_since_build. unfold build_model_calls, optimizer_calls.
  simpl. by destruct optimizer.
Qed.

Lemma build_model_one_seed_witness :
  ∃ a model a' w',
    __init__ (PyInt 6) PyNone (PyBool false) (PyStr "mean_squared_error")
             PyNone (PyInt 4) (PyInt 7) (PyStr "linear") (PyBool true)
             PyNone tensorflow_world = (inr a, tensorflow_world)
    ∧ build_model example_framework [24; 1] [] (a, tensorflow_world)
      = (inr model, (a', w'))
    ∧ filter (λ c, is_seed_call c || is_build_network_call c)
             (calls_since tensorflow_world w')
      = [CSetSeed (PyInt 7);
         CBuildNetwork {| net_random_state := PyInt 7 |} [24; 1] []].
Proof.
  exact (build_model_one_seed (PyInt 6) PyNone (PyBool false)
           (PyStr "mean_squared_error") PyNone (PyInt 4) (PyInt 7)
           (PyStr "linear") (PyBool true) PyNone example_framework
           tensorflow_world [24; 1] []
           example_framework_quiet tensorflow_world_ready).
Defined.

(** X13.  The defaults of the docstring are what an adapter constructed without
    arguments works with, although the signature has [None] for optimizer
    and metrics: in a quiet framework its model ends in a dense layer with
    linear activation and bias, is compiled with the mean squared error as
    loss, a new Adam optimizer with learning rate 0.01 and a new list of the
    one metric mean squared error, and is trained for 1500 epochs in batches
    of 16, without verbosity and without callbacks. *)
Theorem default_adapter_fit (fw : Framework) (w : World) (X y : ndarray)
    (n d m : nat) :
  quiet fw →
  "tensorflow" ∈ installed w →
  nd_shape X = [n; d; m] →
  ∃ a a' w' model Xt l_optimizer l_metrics,
    construct [] w = (inr a, w)
    ∧ _fit fw X y (a, w) = (inr a', (a', w'))
    ∧ model_ a' = Some model
    ∧ outputs model
      = KDense 1 (PyStr "linear") (PyBool true)
               (fw_build_network fw {| net_random_state := PyNone |}
                                 [m; d] []).2
    ∧ compiled model
      = Some {| c_loss := PyStr "mean_squared_error";
                c_optimizer := PyRef l_optimizer;
                c_metrics := PyRef l_metrics |}
    ∧ objects w' !! l_optimizer
      = Some (OInst "keras.optimizers.Adam"
                    [("learning_rate", PyFloat (1 # 100))])
    ∧ objects w' !! l_metrics = Some (OList [PyStr "mean_squared_error"])
    ∧ last (calls w')
      = Some (CFit model Xt y (PyInt 16) (PyInt 1500) (PyBool false) PyNone)
    ∧ length (objects w) ≤ l_optimizer
    ∧ length (objects w) ≤ l_metrics
    ∧ l_optimizer ≠ l_metrics.
Proof.
  intros Hq Htf Hshape.
  destruct (transpose_3d X n d m Hshape) as (Xt & HX & HXt & _).
  eexists _, _, _, _, Xt, _, _.
  split; [by apply construct_run|].
  split.
  { rewrite (_fit_quiet fw Hq _ w X y Xt Htf HX) by reflexivity.
    rewrite HXt. cbn [tail callbacks kwarg dict_get].
    unfold deepcopy. cbn [deepcopy_rec mret M_ret]. reflexivity. }
  cbn [model_ set_history set_callbacks_ adapter_before_copy set_model_].
  split; [reflexivity|]. split; [reflexivity|]. split; [reflexivity|].
  rewrite objects_after_training_atomic, calls_after_training by done.
  unfold before_copy. cbn [verbose kwarg dict_get truthy objects log_call
    set_objects after_build_model calls].
  unfold optimizer_objects, metrics_objects.
  cbn [optimizer metrics kwarg dict_get].
  split.
  { rewrite lookup_app_r by lia. by rewrite Nat.sub_diag. }
  split.
  { rewrite app_assoc, lookup_app_r by done. by rewrite Nat.sub_diag. }
  split; [apply last_snoc|].
  rewrite length_app. cbn [length]. lia.
Qed.

Lemma default_adapter_fit_witness :
  ∃ a a' w' model Xt,
    construct [] tensorflow_world = (inr a, tensorflow_world)
    ∧ _fit example_framework example_X example_y (a, tensorflow_world)
      = (inr a', (a', w'))
    ∧ last (calls w')
      = Some (CFit model Xt example_y (PyInt 16) (PyInt 1500) (PyBool false)
                   PyNone).
Proof.
  destruct (default_adapter_fit example_framework tensorflow_world
              example_X example_y 2 1 3)
    as (a & a' & w' & model & Xt & lo & lm & Ha & Hrun & _ & _ & _ & _ & _
        & Hlast & _).
  - exact example_framework_quiet.
  - exact tensorflow_world_ready.
  - reflexivity.
  - exists a, a', w', model, Xt. split_and!; [exact Ha|exact Hrun|exact Hlast].
Defined.
